(** * Entitlement, usage ledger and payment reconciliation of [backend/app.py]

    A shallow embedding of the Flask handlers [download_doc],
    [start_checkout], [billing_webhook], [approve_doc] and [reject_doc],
    over an explicit model of the four SQL tables they touch.

    - Tables with an integer primary key that is looked up by
      [Model.query.get] are finite maps from the key ([gmap Z _]).
    - [document_accesses] and [download_audits] are row lists, newest last.
      Row ids and [created_at] columns are left out: no handler reads them.
    - String-typed columns ([role], [subscription_status], [status],
      [storage]) stay strings and are compared the way the code compares
      them, against the literals ["admin"], ["paid"], ["approved"], ["s3"].
    - Module-level settings read from the process environment are the
      fields of [Config]. *)

From Stdlib Require Import ZArith Ascii String List Bool Lia.
From stdpp Require Import base gmap strings list fin_maps fin_sets.

Local Open Scope Z_scope.
Local Open Scope string_scope.

(** ** Tables *)

(** [class User]: the columns the handlers read or write.  The primary key
    is the key of the [users] map. *)
Record User := mkUser {
  email : string;
  role : string;                 (* user | admin *)
  subscription_status : string   (* free | paid *)
}.

(** [class Document]: the columns [download_doc], [approve_doc] and
    [reject_doc] read or write. *)
Record Document := mkDocument {
  file_name : string;
  storage : string;              (* local | s3 *)
  s3_key : option string;
  content_type : option string;
  status : string                (* pending | approved | rejected *)
}.

(** [class DocumentAccess], the usage ledger; the table carries
    [UniqueConstraint("user_id", "document_id")]. *)
Record DocumentAccess := mkAccess {
  access_user_id : Z;
  access_document_id : Z
}.

(** [class DownloadAudit]. *)
Record DownloadAudit := mkAudit {
  audit_user_id : option Z;
  audit_document_id : Z;
  ip_address : option string;
  user_agent : option string
}.

Record DB := mkDB {
  users : gmap Z User;
  documents : gmap Z Document;
  document_accesses : list DocumentAccess;
  download_audits : list DownloadAudit
}.

(** ** Settings *)

Record Config := mkConfig {
  FREE_DOC_LIMIT : Z;             (* int(os.getenv("FREE_DOC_LIMIT", "2")) *)
  stripe : bool;                  (* the stripe module was imported *)
  STRIPE_SECRET_KEY : string;
  STRIPE_PRICE_ID : string;
  STRIPE_WEBHOOK_SECRET : string;
  SIMULATE_PAYMENTS : bool;
  boto3 : bool;                   (* the boto3 module was imported *)
  S3_BUCKET : string
}.

(** Python truth value of a [str]. *)
Definition truthy (s : string) : bool := negb (String.eqb s "").

(** Python truth value of an optional [str] ([None] is false). *)
Definition truthy_opt (o : option string) : bool :=
  match o with
  | Some s => truthy s
  | None => false
  end.

(** [a or b] on optional strings. *)
Definition py_or (a b : option string) : option string :=
  if truthy_opt a then a else b.

(** ** Results of the decision and of the handlers *)

Inductive DenyReason := NotAvailable | QuotaExceeded.

Inductive Entitlement := Allow | Deny (why : DenyReason).

(** What [download_doc] answers. *)
Inductive Response :=
| NotFound404                       (* get_or_404 *)
| Unhandled500                      (* an exception no handler catches *)
| NotAvailable403                   (* "Document not available" *)
| UpgradeRequired402                (* "Upgrade required to access more documents" *)
| DownloadUrl (url : string)        (* 200, presigned link *)
| FileMissing410                    (* "File missing on server" *)
| CannotGenerateLink500             (* "Cannot generate download link" *)
| SendFile (name mimetype : string) (* 200, send_from_directory *).

(** The commits a handler performs, in the order it performs them. *)
Inductive DbEvent :=
| CommittedAccess (row : DocumentAccess)
| CommittedAudit (row : DownloadAudit)
| RolledBackAudit.

(** What [generate_presigned_url] does for this request. *)
Inductive Presign :=
| PresignUrl (url : string)
| PresignClientError                (* BotoCoreError or ClientError *)
| PresignOtherError.

(** The part of the HTTP request and of the outside world that one run of
    [download_doc] observes.  [forwarded_for] is the first entry of the
    [X-Forwarded-For] header with blanks stripped, the empty string when
    the header is absent. *)
Record DownloadRequest := mkRequest {
  forwarded_for : string;
  remote_addr : option string;
  user_agent_header : option string;
  audit_commit_ok : bool;           (* the try block of lines 508-519 raises nothing *)
  presign : Presign;
  file_on_disk : bool               (* os.path.isfile(filepath) *)
}.

(** ** The usage ledger as the handler reads it *)

(** The rows behind [user.accesses]. *)
Definition accesses (db : DB) (uid : Z) : list DocumentAccess :=
  filter (λ a, access_user_id a = uid) (document_accesses db).

(** [{a.document_id for a in user.accesses}]. *)
Definition accessed_ids (db : DB) (uid : Z) : gset Z :=
  list_to_set (access_document_id <$> accesses db uid).

Definition add_access (row : DocumentAccess) (db : DB) : DB :=
  mkDB (users db) (documents db) (document_accesses db ++ [row])%list (download_audits db).

Definition add_audit (row : DownloadAudit) (db : DB) : DB :=
  mkDB (users db) (documents db) (document_accesses db) (download_audits db ++ [row])%list.

(** The uniqueness constraint of the ledger table, as decided at commit. *)
Definition has_row (db : DB) (uid doc_id : Z) : bool :=
  existsb (λ a, (access_user_id a =? uid)%Z && (access_document_id a =? doc_id)%Z)
          (document_accesses db).

Section Download.
Context (cfg : Config).

(** [_use_s3()]: [s3_client] exists only when boto3 is importable and a
    bucket is configured. *)
Definition _use_s3 : bool :=
  (boto3 cfg && truthy (S3_BUCKET cfg)) && truthy (S3_BUCKET cfg).

(** Outcome of the first half of [download_doc] (lines 491-501): either
    the handler has already answered, or it goes on with the user, the
    document and the set [accessed] it has read. *)
Inductive Gate :=
| Halt (r : Response)
| Pass (user : User) (doc : Document) (accessed : gset Z).

Definition download_gate (identity doc_id : Z) (db : DB) : Gate :=
  match documents db !! doc_id with
  | None => Halt NotFound404
  | Some doc =>
    match users db !! identity with
    | None => Halt Unhandled500     (* user is None: attribute access raises *)
    | Some user =>
      if negb (status doc =? "approved") && negb (role user =? "admin")
      then Halt NotAvailable403
      else
        let accessed := accessed_ids db identity in
        if (negb (role user =? "admin") && negb (subscription_status user =? "paid"))
           && (negb (bool_decide (doc_id ∈ accessed))
               && (FREE_DOC_LIMIT cfg <=? Z.of_nat (size accessed))%Z)
        then Halt UpgradeRequired402
        else Pass user doc accessed
    end
  end.

(** Lines 503-505: the ledger insert and its commit. [None] is the
    IntegrityError of the uniqueness constraint. *)
Definition record_access (identity doc_id : Z) (accessed : gset Z) (db : DB)
  : option (DB * list DbEvent) :=
  if bool_decide (doc_id ∈ accessed) then Some (db, [])
  else if has_row db identity doc_id then None
  else
    let row := mkAccess identity doc_id in
    Some (add_access row db, [CommittedAccess row]).

(** Lines 507-521: the best-effort audit row. *)
Definition log_download (rq : DownloadRequest) (identity doc_id : Z) (db : DB)
  : DB * list DbEvent :=
  let ip_addr := py_or (Some (forwarded_for rq)) (remote_addr rq) in
  let audit := mkAudit (Some identity) doc_id ip_addr (user_agent_header rq) in
  if audit_commit_ok rq
  then (add_audit audit db, [CommittedAudit audit])
  else (db, [RolledBackAudit]).

(** Lines 523-551: where the bytes come from. *)
Definition serve (rq : DownloadRequest) (doc : Document) : Response :=
  if (storage doc =? "s3") && _use_s3 && truthy_opt (s3_key doc)
  then
    match presign rq with
    | PresignUrl url => DownloadUrl url
    | PresignClientError => FileMissing410
    | PresignOtherError => CannotGenerateLink500
    end
  else if negb (file_on_disk rq) then FileMissing410
  else SendFile (file_name doc)
                (default "application/pdf" (py_or (content_type doc) None)).

(** Second half of [download_doc] (lines 503-551). *)
Definition download_grant (rq : DownloadRequest) (identity doc_id : Z)
    (doc : Document) (accessed : gset Z) (db : DB)
  : Response * DB * list DbEvent :=
  match record_access identity doc_id accessed db with
  | None => (Unhandled500, db, [])
  | Some (db1, ev1) =>
    let '(db2, ev2) := log_download rq identity doc_id db1 in
    (serve rq doc, db2, (ev1 ++ ev2)%list)
  end.

(** [download_doc], for the authenticated identity [identity]. *)
Definition download_doc (rq : DownloadRequest) (identity doc_id : Z) (db : DB)
  : Response * DB * list DbEvent :=
  match download_gate identity doc_id db with
  | Halt r => (r, db, [])
  | Pass user doc accessed => download_grant rq identity doc_id doc accessed db
  end.

(** The entitlement decision a response stands for; [None] when the
    request never reached a decision. *)
Definition decision_of (r : Response) : option Entitlement :=
  match r with
  | NotFound404 | Unhandled500 => None
  | NotAvailable403 => Some (Deny NotAvailable)
  | UpgradeRequired402 => Some (Deny QuotaExceeded)
  | DownloadUrl _ | FileMissing410 | CannotGenerateLink500 | SendFile _ _ => Some Allow
  end.

End Download.

(** ** The policy as the specification words it (section 4.3) *)

Module Policy.

(** [isReadableBy(document, actor)]: approved, or the actor is an admin. *)
Definition isReadableBy (doc : Document) (actor : User) : bool :=
  (status doc =? "approved") || (role actor =? "admin").

(** [hasAccessed(user, document)]: the (user, document) pair exists. *)
Definition hasAccessed (db : DB) (uid doc_id : Z) : bool :=
  has_row db uid doc_id.

(** [countDistinctDocuments(user)]: cardinality of the user's ledger. *)
Definition countDistinctDocuments (db : DB) (uid : Z) : Z :=
  Z.of_nat (size (accessed_ids db uid)).

(** [decide(user, document)], steps 1 to 6 in order. *)
Definition decide (limit : Z) (db : DB) (uid : Z) (user : User)
    (doc_id : Z) (doc : Document) : Entitlement :=
  if negb (isReadableBy doc user) then Deny NotAvailable
  else if role user =? "admin" then Allow
  else if subscription_status user =? "paid" then Allow
  else if hasAccessed db uid doc_id then Allow
  else if (countDistinctDocuments db uid <? limit)%Z then Allow
  else Deny QuotaExceeded.

End Policy.

(** ** Billing *)

(** A verified Stripe event, as far as [billing_webhook] looks into it:
    [event["type"]] and [event["data"]["object"].get("metadata", {}).get("user_id")].
    Stripe metadata values are strings. *)
Record Event := mkEvent {
  ev_type : string;
  ev_user_id : option string
}.

Inductive WebhookResponse :=
| WebhookNotConfigured503
| WebhookError400                   (* construct_event raised *)
| WebhookUnhandled500               (* an exception no handler catches *)
| Received200.                      (* {"received": True} *)

Inductive CheckoutResponse :=
| CheckoutUrl (url : string)
| StripeError502
| Simulated (subscription : string)
| CheckoutUnhandled500
| PaymentsNotConfigured503.

Inductive AdminResponse :=
| Unauthorized401
| AdminOnly403
| DocNotFound404
| DocumentJson (doc : Document).

(** [user.subscription_status = st; db.session.commit()] for the row [uid]. *)
Definition set_subscription (st : string) (uid : Z) (user : User) (db : DB) : DB :=
  mkDB (<[uid := mkUser (email user) (role user) st]> (users db))
       (documents db) (document_accesses db) (download_audits db).

(** [doc.status = st; db.session.commit()] for the row [doc_id]. *)
Definition set_status (st : string) (doc_id : Z) (doc : Document) (db : DB) : DB :=
  mkDB (users db)
       (<[doc_id := mkDocument (file_name doc) (storage doc) (s3_key doc)
                               (content_type doc) st]> (documents db))
       (document_accesses db) (download_audits db).

Section Billing.
Context (cfg : Config).
(** Python's [int] on a [str]: the integer it denotes, [None] where
    [int] raises ValueError. *)
Context (py_int : string → option Z).

(** [_current_user()] (lines 228-235), from what [get_jwt_identity()]
    returns: the id and the row, [None] also when [int] raises, which the
    function catches.  The handlers below take the id it has read. *)
Definition _current_user (jwt_identity : option string) (db : DB) : option (Z * User) :=
  match jwt_identity with
  | None => None
  | Some user_id =>
    if truthy user_id then
      match py_int user_id with
      | None => None
      | Some uid => pair uid <$> users db !! uid
      end
    else None
  end.

(** One branch of the webhook (lines 649-655 with ["paid"], lines
    657-663 with ["free"]). [None]: [int(user_id)] raised. *)
Definition reconcile (st : string) (user_id : option string) (db : DB) : option DB :=
  match user_id with
  | None => Some db
  | Some ref =>
    if truthy ref then
      match py_int ref with
      | None => None
      | Some uid =>
        match users db !! uid with
        | Some user => Some (set_subscription st uid user db)
        | None => Some db
        end
      end
    else Some db
  end.

(** Lines 648-663. *)
Definition process_event (ev : Event) (db : DB) : option DB :=
  if ev_type ev =? "checkout.session.completed"
  then reconcile "paid" (ev_user_id ev) db
  else if ev_type ev =? "customer.subscription.deleted"
  then reconcile "free" (ev_user_id ev) db
  else Some db.

(** [billing_webhook]; [verified] is what [stripe.Webhook.construct_event]
    returns, [None] when it raises. *)
Definition billing_webhook (verified : option Event) (db : DB) : WebhookResponse * DB :=
  if negb (stripe cfg) || negb (truthy (STRIPE_WEBHOOK_SECRET cfg))
  then (WebhookNotConfigured503, db)
  else
    match verified with
    | None => (WebhookError400, db)
    | Some ev =>
      match process_event ev db with
      | None => (WebhookUnhandled500, db)
      | Some db' => (Received200, db')
      end
    end.

(** [start_checkout]; [session] is the URL of the session that
    [stripe.checkout.Session.create] returns, [None] when it raises. *)
Definition start_checkout (session : option string) (identity : Z) (db : DB)
  : CheckoutResponse * DB :=
  if stripe cfg && truthy (STRIPE_SECRET_KEY cfg) && truthy (STRIPE_PRICE_ID cfg)
  then
    match users db !! identity, session with
    | Some _, Some url => (CheckoutUrl url, db)
    | _, _ => (StripeError502, db)
    end
  else if SIMULATE_PAYMENTS cfg
  then
    match users db !! identity with
    | Some user => (Simulated "paid", set_subscription "paid" identity user db)
    | None => (CheckoutUnhandled500, db)
    end
  else (PaymentsNotConfigured503, db).

(** [approve_doc] and [reject_doc] behind [admin_required]. *)
Definition moderate (st : string) (identity doc_id : Z) (db : DB) : AdminResponse * DB :=
  match users db !! identity with
  | None => (Unauthorized401, db)
  | Some user =>
    if negb (role user =? "admin") then (AdminOnly403, db)
    else
      match documents db !! doc_id with
      | None => (DocNotFound404, db)
      | Some doc =>
        let db' := set_status st doc_id doc db in
        (DocumentJson (mkDocument (file_name doc) (storage doc) (s3_key doc)
                                  (content_type doc) st), db')
      end
  end.

Definition approve_doc := moderate "approved".
Definition reject_doc := moderate "rejected".

(** ** Requests served one after another *)

Inductive Op :=
| OpDownload (rq : DownloadRequest) (identity doc_id : Z)
| OpCheckout (session : option string) (identity : Z)
| OpWebhook (verified : option Event)
| OpApprove (identity doc_id : Z)
| OpReject (identity doc_id : Z).

Definition step (db : DB) (op : Op) : DB :=
  match op with
  | OpDownload rq identity doc_id => (download_doc cfg rq identity doc_id db).1.2
  | OpCheckout session identity => (start_checkout session identity db).2
  | OpWebhook verified => (billing_webhook verified db).2
  | OpApprove identity doc_id => (approve_doc identity doc_id db).2
  | OpReject identity doc_id => (reject_doc identity doc_id db).2
  end.

Definition run (ops : list Op) (db : DB) : DB := fold_left step ops db.

(** Every state the store goes through, the initial one first. *)
Fixpoint states (ops : list Op) (db : DB) : list DB :=
  match ops with
  | [] => [db]
  | op :: ops' => db :: states ops' (step db op)
  end.

End Billing.

(** The same download request repeated, one run after the other. *)
Fixpoint downloads (cfg : Config) (rqs : list DownloadRequest) (identity doc_id : Z)
    (db : DB) : list (Response * list DbEvent) * DB :=
  match rqs with
  | [] => ([], db)
  | rq :: rqs' =>
    let '(r, db1, evs) := download_doc cfg rq identity doc_id db in
    let '(rs, db2) := downloads cfg rqs' identity doc_id db1 in
    ((r, evs) :: rs, db2)
  end.

(** The same event delivered [n] times; [None] as soon as one delivery raises. *)
Fixpoint deliver (py_int : string → option Z) (n : nat) (ev : Event) (db : DB) : option DB :=
  match n with
  | O => Some db
  | S n' =>
    match process_event py_int ev db with
    | Some db' => deliver py_int n' ev db'
    | None => None
    end
  end.

(** ** Quota bookkeeping *)

Definition is_admin (u : User) : bool := role u =? "admin".
Definition is_paid (u : User) : bool := subscription_status u =? "paid".
Definition is_free (u : User) : bool := subscription_status u =? "free".

(** The quota bound of one user row. *)
Definition within_quota (cfg : Config) (db : DB) (uid : Z) : Prop :=
  (Z.of_nat (size (accessed_ids db uid)) ≤ FREE_DOC_LIMIT cfg)%Z.

(** The bound for every user that is neither admin nor paid. *)
Definition quota_inv (cfg : Config) (db : DB) : Prop :=
  map_Forall (λ uid u, is_admin u = false → is_paid u = false → within_quota cfg db uid)
             (users db).

(** The user row [uid] is not paid in [db] (also when there is no such row). *)
Definition unpaid_in (uid : Z) (db : DB) : bool :=
  match users db !! uid with
  | Some u => negb (is_paid u)
  | None => true
  end.

(** ** Two handlers of [download_doc] running at the same time

    Nothing in [download_doc] locks the user row or the ledger: the read
    of [user.accesses] (line 498) and the insert with its commit (lines
    504-505) are separate statements on the shared store.  A handler is
    therefore two steps, [download_gate] and [download_grant], and a
    schedule says which of two handlers takes its next step. *)

Inductive Phase :=
| Ready
| Checked (doc : Document) (accessed : gset Z)
| Finished (r : Response).

Record Handler := mkHandler {
  h_request : DownloadRequest;
  h_identity : Z;
  h_doc_id : Z;
  h_phase : Phase
}.

Definition set_phase (h : Handler) (ph : Phase) : Handler :=
  mkHandler (h_request h) (h_identity h) (h_doc_id h) ph.

Definition advance (cfg : Config) (h : Handler) (db : DB) : Handler * DB :=
  match h_phase h with
  | Ready =>
    match download_gate cfg (h_identity h) (h_doc_id h) db with
    | Halt r => (set_phase h (Finished r), db)
    | Pass _ doc accessed => (set_phase h (Checked doc accessed), db)
    end
  | Checked doc accessed =>
    let '(r, db', _) :=
      download_grant cfg (h_request h) (h_identity h) (h_doc_id h) doc accessed db in
    (set_phase h (Finished r), db')
  | Finished _ => (h, db)
  end.

(** [true] lets the first handler step, [false] the second. *)
Fixpoint interleave (cfg : Config) (sched : list bool) (a b : Handler) (db : DB)
  : Handler * Handler * DB :=
  match sched with
  | [] => (a, b, db)
  | true :: sched' =>
    let '(a', db') := advance cfg a db in interleave cfg sched' a' b db'
  | false :: sched' =>
    let '(b', db') := advance cfg b db in interleave cfg sched' a b' db'
  end.

(** Each handler gets exactly its two steps. *)
Definition complete (sched : list bool) : bool :=
  (length (filter (λ x, x = true) sched) =? 2)%nat
  && (length (filter (λ x, x = false) sched) =? 2)%nat.

(** One handler has finished before the other starts. *)
Definition serial (sched : list bool) : bool :=
  match sched with
  | x :: y :: _ => Bool.eqb x y
  | _ => false
  end.

Definition outcome (h : Handler) : option Entitlement :=
  match h_phase h with
  | Finished r => decision_of r
  | _ => None
  end.

(** The same request with the fate of its audit commit chosen. *)
Definition with_audit (ok : bool) (rq : DownloadRequest) : DownloadRequest :=
  mkRequest (forwarded_for rq) (remote_addr rq) (user_agent_header rq) ok
            (presign rq) (file_on_disk rq).

Definition is_access_commit (e : DbEvent) : bool :=
  match e with
  | CommittedAccess _ => true
  | _ => false
  end.

(** The two event kinds the webhook acts on, carrying the user reference
    [ref] in their metadata. *)
Definition completed (ref : string) : Event :=
  mkEvent "checkout.session.completed" (Some ref).

Definition canceled (ref : string) : Event :=
  mkEvent "customer.subscription.deleted" (Some ref).

(** The subscription column of the row [uid], if the row exists. *)
Definition subscription_of (db : DB) (uid : Z) : option string :=
  subscription_status <$> users db !! uid.

(** The bound as it applies to one user row: an admin or paid row is
    under no bound. *)
Definition bounded_row (cfg : Config) (db : DB) (uid : Z) : Prop :=
  ∀ u, users db !! uid = Some u → is_admin u = false → is_paid u = false →
       within_quota cfg db uid.

(** The store after the handler for (uid, doc_id) has inserted its ledger
    row and attempted its audit row. *)
Definition granted (rq : DownloadRequest) (uid doc_id : Z) (db : DB) : DB :=
  (log_download rq uid doc_id (add_access (mkAccess uid doc_id) db)).1.

(** The number of distinct documents in the ledger of [uid]. *)
Definition ledger_count (db : DB) (uid : Z) : Z :=
  Z.of_nat (size (accessed_ids db uid)).

(** ** A small deployment to run the model on *)

(** [int] on a non-empty string of ASCII digits; [None] on any other
    string, ["abc"] among them, which [int] rejects with ValueError.  The
    event references used below are ["1"] and ["abc"]. *)
Definition digit_of (a : Ascii.ascii) : option Z :=
  let n := Z.of_nat (Ascii.nat_of_ascii a) in
  if (48 <=? n)%Z && (n <=? 57)%Z then Some (n - 48)%Z else None.

Fixpoint digits_value (acc : Z) (s : string) : option Z :=
  match s with
  | EmptyString => Some acc
  | String a s' =>
    match digit_of a with
    | Some d => digits_value (10 * acc + d)%Z s'
    | None => None
    end
  end.

Definition int_on_digits (s : string) : option Z :=
  match s with
  | EmptyString => None
  | _ => digits_value 0 s
  end.

Module Scenario.

(** FREE_DOC_LIMIT = 2, Stripe and its webhook configured, local storage. *)
Definition cfg2 : Config :=
  mkConfig 2 true "sk_test" "price_basic" "whsec_test" false false "".

Definition alice : User := mkUser "alice@example.org" "user" "free".
Definition root : User := mkUser "root@example.org" "admin" "free".

Definition paper (st : string) : Document :=
  mkDocument "paper.pdf" "local" None (Some "application/pdf") st.

Definition rq0 : DownloadRequest :=
  mkRequest "" (Some "203.0.113.7") (Some "curl/8.5") true PresignOtherError true.

Definition with_ledger (rows : list DocumentAccess) : DB :=
  mkDB {[ 1%Z := alice; 9%Z := root ]}
       {[ 1%Z := paper "approved"; 2%Z := paper "approved";
          3%Z := paper "approved"; 4%Z := paper "pending" ]}
       rows [].

(** Nobody has downloaded anything yet. *)
Definition fresh_db : DB := with_ledger [].

(** alice has used one of her two free documents. *)
Definition one_slot_db : DB := with_ledger [mkAccess 1 1].

(** alice has used both. *)
Definition full_db : DB := with_ledger [mkAccess 1 1; mkAccess 1 2].

(** alice pays, downloads three documents, and cancels. *)
Definition upgrade_and_cancel : list Op :=
  [ OpWebhook (Some (completed "1"));
    OpDownload rq0 1 1; OpDownload rq0 1 2; OpDownload rq0 1 3;
    OpWebhook (Some (canceled "1")) ].

(** alice stays free and tries three documents. *)
Definition stay_free : list Op :=
  [ OpDownload rq0 1 1; OpDownload rq0 1 2; OpDownload rq0 1 3;
    OpWebhook (Some (canceled "1")); OpApprove 9 4 ].

End Scenario.

(** A store in which the pair is recorded and the gate lets the user
    through: the state after a first grant. *)
Definition settled (cfg : Config) (identity doc_id : Z) (db : DB) : Prop :=
  doc_id ∈ accessed_ids db identity
  ∧ ∃ user doc, download_gate cfg identity doc_id db
                = Pass user doc (accessed_ids db identity).

(** * The other handlers and helpers of [backend/app.py] *)

(** ** [User.serialize] and [me] *)

Record UserJson := mkUserJson {
  uj_id : Z;
  uj_email : string;
  uj_role : string;
  uj_subscription_status : string;
  uj_free_docs_remaining : Z;
  uj_accessed_doc_ids : list Z
}.

(** [User.serialize] (lines 112-122): [self.accesses.count()] counts rows,
    the list comprehension walks the same rows.  The query behind
    [self.accesses] has no ORDER BY, so the order of [accessed_doc_ids] is
    the store's choice; the model lists the rows as inserted, and the
    properties below do not depend on the order. *)
Definition User_serialize (cfg : Config) (db : DB) (uid : Z) (user : User) : UserJson :=
  let used := Z.of_nat (length (accesses db uid)) in
  let remaining := Z.max (FREE_DOC_LIMIT cfg - used) 0 in
  mkUserJson uid (email user) (role user) (subscription_status user) remaining
             (access_document_id <$> accesses db uid).

(** [me] (lines 328-332): the serialized user and [free_limit]; [None]
    when there is no user row and [user.serialize()] raises. *)
Definition me (cfg : Config) (identity : Z) (db : DB) : option (UserJson * Z) :=
  match users db !! identity with
  | Some user => Some (User_serialize cfg db identity user, FREE_DOC_LIMIT cfg)
  | None => None
  end.

(** ** [allowed_file] *)

(** [str.lower] on one character code; only the letters A-Z move, which
    is all a comparison with ["pdf"] can see. *)
Definition ascii_lower (a : Ascii.ascii) : Ascii.ascii :=
  let n := Ascii.nat_of_ascii a in
  if (65 <=? n)%nat && (n <=? 90)%nat then Ascii.ascii_of_nat (n + 32) else a.

Fixpoint lower (s : string) : string :=
  match s with
  | EmptyString => EmptyString
  | String a s' => String (ascii_lower a) (lower s')
  end.

(** [filename.rsplit(".", 1)[1]] when ["." in filename], else [None]. *)
Fixpoint after_last_dot (s : string) : option string :=
  match s with
  | EmptyString => None
  | String a s' =>
    match after_last_dot s' with
    | Some ext => Some ext
    | None => if Ascii.eqb a "."%char then Some s' else None
    end
  end.

(** [allowed_file] (lines 224-225). *)
Definition allowed_file (filename : string) : bool :=
  match after_last_dot filename with
  | Some ext => lower ext =? "pdf"
  | None => false
  end.

(** ** [send_email] *)

Record MailConfig := mkMailConfig {
  SENDGRID_API_KEY : string;
  SMTP_HOST : string;
  SMTP_USER : string;
  SMTP_PASS : string;
  ADMIN_EMAIL : string
}.

Inductive Transport := SendGrid | Smtp.

(** What the two mail services do for one call of [send_email]:
    [resp.status_code] of the SendGrid request ([None] when
    [requests.post] raises) and whether the SMTP block runs through. *)
Record MailWorld := mkMailWorld {
  sendgrid_status : option Z;
  smtp_sends : bool
}.

(** [send_email] (lines 242-288): the value returned and the transports
    tried, in order. *)
Definition send_email (mc : MailConfig) (w : MailWorld) (to_address : string)
  : bool * list Transport :=
  if negb (truthy to_address) then (false, [])
  else
    let via_sendgrid :=
      if truthy (SENDGRID_API_KEY mc) then
        match sendgrid_status w with
        | Some code => ((200 <=? code)%Z && (code <? 300)%Z, [SendGrid])
        | None => (false, [SendGrid])
        end
      else (false, []) in
    if via_sendgrid.1 then (true, via_sendgrid.2)
    else if truthy (SMTP_HOST mc) && truthy (SMTP_USER mc) && truthy (SMTP_PASS mc)
    then (smtp_sends w, (via_sendgrid.2 ++ [Smtp])%list)
    else (false, via_sendgrid.2).

(** ** [register] *)

Inductive RegisterResponse :=
| RegisterBadRequest400             (* "Email and password required" *)
| RegisterConflict409               (* "User already exists" *)
| RegisterUnhandled500              (* the insert violates the primary key *)
| Registered201 (user : UserJson).

(** [User.query.filter_by(email=email).first()] is not [None]. *)
Definition email_taken (db : DB) (e : string) : bool :=
  existsb (λ row, email row.2 =? e) (map_to_list (users db)).

(** [register] (lines 292-310).  [admin_env] is [os.getenv("ADMIN_EMAIL")]
    at the time of the request, [assigned_id] the primary key the database
    gives the new row.  The password only feeds [password_hash], a column
    no modelled handler reads. *)
Definition register (cfg : Config) (admin_env : option string)
    (email_field password_field : option string) (assigned_id : Z) (db : DB)
  : RegisterResponse * DB :=
  if negb (truthy_opt email_field) || negb (truthy_opt password_field)
  then (RegisterBadRequest400, db)
  else
    let e := default "" email_field in
    if email_taken db e then (RegisterConflict409, db)
    else
      let r := if truthy_opt admin_env && bool_decide (Some e = admin_env)
               then "admin" else "user" in
      let user := mkUser e r "free" in
      match users db !! assigned_id with
      | Some _ => (RegisterUnhandled500, db)
      | None =>
        let db' := mkDB (<[assigned_id := user]> (users db)) (documents db)
                        (document_accesses db) (download_audits db) in
        (Registered201 (User_serialize cfg db' assigned_id user), db')
      end.

(** ** [upload_doc] *)

(** [request.files["file"]]: its [filename] and [mimetype]. *)
Record UploadedFile := mkUploadedFile {
  filename : string;
  mimetype : string
}.

(** What storing the uploaded bytes does: it works, it raises one of the
    two boto errors the handler catches, or it raises something else. *)
Inductive StoreOutcome := Stored | StoreClientError | StoreOtherError.

(** The multipart form and what the outside world does during one upload.
    [stored_name] is [uuid4().hex + "_" + secure_filename(file.filename)],
    [assigned_doc_id] the primary key the database gives the new row. *)
Record UploadForm := mkUploadForm {
  form_file : option UploadedFile;  (* None: "file" not in request.files *)
  form_title : option string;
  form_course_code : option string;
  form_kind : option string;        (* None: the default "paper" applies *)
  stored_name : string;
  store_outcome : StoreOutcome;
  assigned_doc_id : Z;
  admin_mail : MailWorld;
  uploader_mail : MailWorld
}.

Inductive UploadResponse :=
| PdfRequired400                    (* "PDF file required" *)
| OnlyPdf400                        (* "Only PDF uploads are allowed" *)
| TitleCourseRequired400            (* "Title and course code required" *)
| InvalidType400                    (* "Invalid document type" *)
| S3Failed502                       (* "S3 upload failed" *)
| UploadUnhandled500                (* an exception no handler catches *)
| Created201 (doc_id : Z) (doc : Document).

(** [upload_doc] (lines 336-411): the response, the store, and the mails
    attempted with their results.  Of the new row, the columns of
    [Document] are kept; title, course code, year, term, kind, notes and
    uploader are stored as received and read by no modelled handler. *)
Definition upload_doc (cfg : Config) (mc : MailConfig) (form : UploadForm)
    (identity : Z) (db : DB) : UploadResponse * DB * list (string * bool) :=
  match form_file form with
  | None => (PdfRequired400, db, [])
  | Some file =>
    if negb (truthy (filename file)) then (PdfRequired400, db, [])
    else if negb (allowed_file (filename file)) then (OnlyPdf400, db, [])
    else if negb (truthy_opt (form_title form)) || negb (truthy_opt (form_course_code form))
    then (TitleCourseRequired400, db, [])
    else
      let kind := default "paper" (form_kind form) in
      if negb ((kind =? "paper") || (kind =? "solution")) then (InvalidType400, db, [])
      else
        let content := if truthy (mimetype file) then mimetype file else "application/pdf" in
        let placed :=
          if _use_s3 cfg then
            match store_outcome form with
            | Stored => inr ("s3", Some ("uploads/" ++ stored_name form))
            | StoreClientError => inl S3Failed502
            | StoreOtherError => inl UploadUnhandled500
            end
          else
            match store_outcome form with
            | Stored => inr ("local", None)
            | _ => inl UploadUnhandled500
            end in
        match placed with
        | inl r => (r, db, [])
        | inr (place, key) =>
          match users db !! identity with
          | None => (UploadUnhandled500, db, [])   (* user.id on None *)
          | Some user =>
            match documents db !! assigned_doc_id form with
            | Some _ => (UploadUnhandled500, db, [])
            | None =>
              let doc := mkDocument (stored_name form) place key (Some content) "pending" in
              let db' := mkDB (users db) (<[assigned_doc_id form := doc]> (documents db))
                              (document_accesses db) (download_audits db) in
              let to_admin := send_email mc (admin_mail form) (ADMIN_EMAIL mc) in
              let to_user := send_email mc (uploader_mail form) (email user) in
              (Created201 (assigned_doc_id form) doc, db',
               [(ADMIN_EMAIL mc, to_admin.1); (email user, to_user.1)])
            end
          end
        end
  end.

(** ** [list_docs] *)

Record DocJson := mkDocJson {
  dj_id : Z;
  dj_file_status : option string
}.

(** [Document.serialize] (lines 144-157), the fields that depend on the
    modelled columns: the id, and the status when it is included. *)
Definition Document_serialize (include_status : bool) (row : Z * Document) : DocJson :=
  mkDocJson row.1 (if include_status then Some (status row.2) else None).

(** [list_docs] (lines 414-434).  [newest_first] lists the ids of the
    documents table by [created_at] descending, the order the query asks
    for; [identity] is the user id of the optional token, [status_arg] the
    [status] query parameter. *)
Definition list_docs (newest_first : list Z) (identity : option Z)
    (status_arg : option string) (db : DB) : list DocJson :=
  let user := identity ≫= (λ uid, users db !! uid) in
  let admin := match user with Some u => role u =? "admin" | None => false end in
  let rows := omap (λ id, pair id <$> documents db !! id) newest_first in
  let selected :=
    if admin then
      if truthy_opt status_arg
      then filter (λ row, status row.2 = default "" status_arg) rows
      else rows
    else filter (λ row, status row.2 = "approved") rows in
  Document_serialize admin <$> take 200 selected.

(** ** [delete_doc] *)

Inductive DeleteResponse :=
| DeleteUnauthorized401
| DeleteAdminOnly403
| DeleteNotFound404
| DeleteFailed500                   (* "Failed to delete document" *)
| Deleted200 (doc_id : Z).

(** The two bulk deletes of lines 475-476. *)
Definition remove_related (doc_id : Z) (db : DB) : DB :=
  mkDB (users db) (documents db)
       (filter (λ a, access_document_id a ≠ doc_id) (document_accesses db))
       (filter (λ a, audit_document_id a ≠ doc_id) (download_audits db)).

(** [db.session.delete(doc)]. *)
Definition remove_document (doc_id : Z) (db : DB) : DB :=
  mkDB (users db) (delete doc_id (documents db))
       (document_accesses db) (download_audits db).

(** [delete_doc] (lines 455-485) behind [admin_required].  [related_ok]:
    the bulk deletes raise nothing (otherwise they are rolled back);
    [commit_ok]: deleting the document row and committing raises nothing
    (otherwise everything pending is rolled back).  Removing the stored
    file is best effort and touches no table. *)
Definition delete_doc (related_ok commit_ok : bool) (identity doc_id : Z) (db : DB)
  : DeleteResponse * DB :=
  match users db !! identity with
  | None => (DeleteUnauthorized401, db)
  | Some user =>
    if negb (role user =? "admin") then (DeleteAdminOnly403, db)
    else
      match documents db !! doc_id with
      | None => (DeleteNotFound404, db)
      | Some _ =>
        let pending := if related_ok then remove_related doc_id db else db in
        if commit_ok then (Deleted200 doc_id, remove_document doc_id pending)
        else (DeleteFailed500, db)
      end
  end.

(** ** Store invariants *)

(** The uniqueness constraint of the ledger holds. *)
Definition ledger_unique (db : DB) : Prop := NoDup (document_accesses db).

(** No two user rows share an email (the [unique=True] of the column). *)
Definition emails_unique (db : DB) : Prop :=
  ∀ i j u v, users db !! i = Some u → users db !! j = Some v →
             email u = email v → i = j.

(** A second deployment to run the handlers on. *)
Module Cases.

Definition mail_all : MailConfig :=
  mkMailConfig "SG.key" "smtp.example.org" "mailer" "secret" "admin@example.org".

Definition s3_cfg : Config :=
  mkConfig 2 true "sk_test" "price_basic" "whsec_test" false true "papers-bucket".

Definition sim_cfg : Config :=
  mkConfig 2 false "" "" "" true false "".

Definition zero_cfg : Config :=
  mkConfig 0 true "sk_test" "price_basic" "whsec_test" false false "".

Definition exam_form : UploadForm :=
  mkUploadForm (Some (mkUploadedFile "Exam 2021.PDF" "")) (Some "Algebra final")
               (Some "MATH101") None "0f3a_Exam_2021.PDF" Stored 7
               (mkMailWorld (Some 202) true) (mkMailWorld (Some 500) true).

(** Users 1 (free) and 2 (paid), admin 9; documents 1 to 3 approved and
    4 pending; user 1 has opened documents 1 and 2, user 2 document 1;
    one audit row each for documents 1 and 2. *)
Definition campus_db : DB :=
  mkDB {[ 1%Z := mkUser "alice@example.org" "user" "free";
          2%Z := mkUser "bob@example.org" "user" "paid";
          9%Z := mkUser "root@example.org" "admin" "free" ]}
       {[ 1%Z := mkDocument "a.pdf" "local" None (Some "application/pdf") "approved";
          2%Z := mkDocument "b.pdf" "local" None (Some "application/pdf") "approved";
          3%Z := mkDocument "c.pdf" "s3" (Some "uploads/c.pdf") None "approved";
          4%Z := mkDocument "d.pdf" "local" None (Some "application/pdf") "pending" ]}
       [mkAccess 1 1; mkAccess 1 2; mkAccess 2 1]
       [mkAudit (Some 1%Z) 1 (Some "203.0.113.7") None;
        mkAudit (Some 1%Z) 2 (Some "203.0.113.7") None].

(** A store right after [db.create_all()]. *)
Definition empty_db : DB := mkDB ∅ ∅ [] [].

Definition plain_rq : DownloadRequest :=
  mkRequest "198.51.100.4" (Some "10.0.0.1") (Some "Mozilla/5.0") true
            (PresignUrl "https://papers-bucket.example/c.pdf?sig=1") true.

End Cases.

(** * Properties *)

(** ** Reading the ledger *)

Lemma has_row_accessed db uid doc_id :
  has_row db uid doc_id = true ↔ doc_id ∈ accessed_ids db uid.
Proof.
  unfold has_row, accessed_ids, accesses.
  rewrite existsb_exists, elem_of_list_to_set, list_elem_of_fmap.
  split.
  - intros (a & Hin & Hab). apply andb_true_iff in Hab as [Hu Hd].
    apply Z.eqb_eq in Hu, Hd. exists a. split; [done|].
    apply list_elem_of_filter. split; [done|]. by apply list_elem_of_In.
  - intros (a & -> & Ha). apply list_elem_of_filter in Ha as [Hu Hin].
    exists a. split; [by apply list_elem_of_In|].
    apply andb_true_iff. split; by apply Z.eqb_eq.
Qed.

Lemma has_row_false db uid doc_id :
  doc_id ∉ accessed_ids db uid → has_row db uid doc_id = false.
Proof.
  intros Hn. destruct (has_row db uid doc_id) eqn:E; [|done].
  by apply has_row_accessed in E.
Qed.

Lemma accessed_ids_add_same db uid doc_id :
  accessed_ids (add_access (mkAccess uid doc_id) db) uid = accessed_ids db uid ∪ {[doc_id]}.
Proof.
  unfold accessed_ids, accesses, add_access; simpl.
  rewrite filter_app, fmap_app, list_to_set_app_L.
  rewrite filter_cons_True by done. simpl. by rewrite union_empty_r_L.
Qed.

Lemma accessed_ids_add_other db uid uid' doc_id :
  uid' ≠ uid →
  accessed_ids (add_access (mkAccess uid' doc_id) db) uid = accessed_ids db uid.
Proof.
  intros Hne. unfold accessed_ids, accesses, add_access; simpl.
  rewrite filter_app, fmap_app, list_to_set_app_L.
  rewrite filter_cons_False by done. simpl. by rewrite union_empty_r_L.
Qed.

Lemma accessed_ids_ledger db db' uid :
  document_accesses db' = document_accesses db →
  accessed_ids db' uid = accessed_ids db uid.
Proof. unfold accessed_ids, accesses. by intros ->. Qed.

(** ** The pieces of [download_doc] *)

Lemma serve_allows cfg rq doc : decision_of (serve cfg rq doc) = Some Allow.
Proof.
  unfold serve.
  destruct ((storage doc =? "s3") && _use_s3 cfg && truthy_opt (s3_key doc)).
  - by destruct (presign rq).
  - by destruct (file_on_disk rq).
Qed.

Lemma log_download_ledger rq identity doc_id db :
  users (log_download rq identity doc_id db).1 = users db
  ∧ documents (log_download rq identity doc_id db).1 = documents db
  ∧ document_accesses (log_download rq identity doc_id db).1 = document_accesses db.
Proof. unfold log_download. by destruct (audit_commit_ok rq). Qed.

(** A handler that decides and grants on the same store never trips over
    the uniqueness constraint. *)
Lemma record_access_fresh db identity doc_id :
  record_access identity doc_id (accessed_ids db identity) db
  = if bool_decide (doc_id ∈ accessed_ids db identity) then Some (db, [])
    else Some (add_access (mkAccess identity doc_id) db,
               [CommittedAccess (mkAccess identity doc_id)]).
Proof.
  unfold record_access. case_bool_decide as Hin; [done|].
  by rewrite has_row_false.
Qed.

Lemma download_gate_pass cfg identity doc_id db user doc accessed :
  download_gate cfg identity doc_id db = Pass user doc accessed →
  users db !! identity = Some user ∧ documents db !! doc_id = Some doc
  ∧ accessed = accessed_ids db identity.
Proof.
  unfold download_gate. intros H.
  destruct (documents db !! doc_id) as [d|]; [|done].
  destruct (users db !! identity) as [u|]; [|done].
  destruct (negb (status d =? "approved") && negb (role u =? "admin")); [done|].
  simpl in H.
  destruct (negb (role u =? "admin") && negb (subscription_status u =? "paid")
            && (negb (bool_decide (doc_id ∈ accessed_ids db identity))
                && (FREE_DOC_LIMIT cfg <=? Z.of_nat (size (accessed_ids db identity)))%Z));
    [done|].
  by inversion H.
Qed.

(** [download_doc] written out for a request that passes the gate. *)
Lemma download_doc_pass cfg rq identity doc_id db user doc accessed :
  download_gate cfg identity doc_id db = Pass user doc accessed →
  download_doc cfg rq identity doc_id db =
    let db1 := if bool_decide (doc_id ∈ accessed_ids db identity) then db
               else add_access (mkAccess identity doc_id) db in
    let ev1 := if bool_decide (doc_id ∈ accessed_ids db identity) then []
               else [CommittedAccess (mkAccess identity doc_id)] in
    (serve cfg rq doc, (log_download rq identity doc_id db1).1,
     (ev1 ++ (log_download rq identity doc_id db1).2)%list).
Proof.
  intros Hg. unfold download_doc, download_grant. rewrite Hg.
  apply download_gate_pass in Hg as (_ & _ & ->).
  rewrite record_access_fresh.
  case_bool_decide; simpl;
    by destruct (log_download _ _ _ _) as [db2 ev2].
Qed.

(** [download_doc] written out for a request the gate answers. *)
Lemma download_doc_halt cfg rq identity doc_id db r :
  download_gate cfg identity doc_id db = Halt r →
  download_doc cfg rq identity doc_id db = (r, db, []).
Proof. intros Hg. unfold download_doc. by rewrite Hg. Qed.

(** The gate itself never answers with a granted download. *)
Lemma halt_not_allow cfg identity doc_id db r :
  download_gate cfg identity doc_id db = Halt r → decision_of r ≠ Some Allow.
Proof.
  unfold download_gate.
  repeat (case_match; try done); by intros [= <-].
Qed.

(** C1. For a user and a document that exist, the decision behind the
    response of [download_doc] is the one the six ordered rules of the
    policy give: not readable, then admin, then paid, then an existing
    ledger pair, then a count below FREE_DOC_LIMIT, else quota exceeded. *)
Theorem download_doc_follows_policy cfg rq identity doc_id db user doc :
  users db !! identity = Some user →
  documents db !! doc_id = Some doc →
  decision_of (download_doc cfg rq identity doc_id db).1.1
  = Some (Policy.decide (FREE_DOC_LIMIT cfg) db identity user doc_id doc).
Proof.
  intros Hu Hd.
  destruct (download_gate cfg identity doc_id db) as [r|u d acc] eqn:Hg.
  - rewrite (download_doc_halt _ _ _ _ _ _ Hg). simpl.
    revert Hg. unfold download_gate, Policy.decide, Policy.isReadableBy,
      Policy.hasAccessed, Policy.countDistinctDocuments.
    rewrite Hu, Hd.
    destruct (status doc =? "approved"), (role user =? "admin"); simpl;
      try (by intros [= <-]).
    destruct (subscription_status user =? "paid"); simpl; [done|].
    case_bool_decide as Hin; simpl; [done|].
    rewrite (has_row_false _ _ _ Hin).
    destruct (Z.leb_spec (FREE_DOC_LIMIT cfg) (Z.of_nat (size (accessed_ids db identity))))
      as [Hle|Hlt]; [|done].
    intros [= <-]. simpl.
    by rewrite (proj2 (Z.ltb_ge _ _) Hle).
  - rewrite (download_doc_pass _ rq _ _ _ _ _ _ Hg). simpl.
    rewrite serve_allows. f_equal.
    revert Hg. unfold download_gate, Policy.decide, Policy.isReadableBy,
      Policy.hasAccessed, Policy.countDistinctDocuments.
    rewrite Hu, Hd.
    destruct (status doc =? "approved"), (role user =? "admin"); simpl;
      try done.
    destruct (subscription_status user =? "paid"); simpl; [done|].
    case_bool_decide as Hin; simpl.
    + intros _. by rewrite (proj2 (has_row_accessed _ _ _) Hin).
    + rewrite (has_row_false _ _ _ Hin).
      destruct (Z.leb_spec (FREE_DOC_LIMIT cfg) (Z.of_nat (size (accessed_ids db identity))))
        as [Hle|Hlt]; [done|].
      intros _. by rewrite (proj2 (Z.ltb_lt _ _) Hlt).
Qed.

(** C10. A denied download writes nothing: when the decision is
    Deny(NotAvailable) or Deny(QuotaExceeded) the store comes back as it
    was (no ledger row, no audit row, nothing else) and no commit or
    rollback was attempted. *)
Theorem denied_download_writes_nothing cfg rq identity doc_id db why :
  decision_of (download_doc cfg rq identity doc_id db).1.1 = Some (Deny why) →
  (download_doc cfg rq identity doc_id db).1.2 = db
  ∧ (download_doc cfg rq identity doc_id db).2 = [].
Proof.
  destruct (download_gate cfg identity doc_id db) as [r|u d acc] eqn:Hg.
  - by rewrite (download_doc_halt _ _ _ _ _ _ Hg).
  - rewrite (download_doc_pass _ rq _ _ _ _ _ _ Hg). simpl.
    by rewrite serve_allows.
Qed.

(** An admin passes the gate whatever the status of the document. *)
Lemma admin_passes_gate cfg identity doc_id db user doc :
  users db !! identity = Some user →
  documents db !! doc_id = Some doc →
  role user = "admin" →
  download_gate cfg identity doc_id db = Pass user doc (accessed_ids db identity).
Proof.
  intros Hu Hd Hr. unfold download_gate. rewrite Hu, Hd, Hr. simpl.
  by rewrite andb_false_r.
Qed.

(** What an allowed download leaves in the ledger. *)
Lemma allowed_download_ledger cfg rq identity doc_id db :
  decision_of (download_doc cfg rq identity doc_id db).1.1 = Some Allow →
  document_accesses (download_doc cfg rq identity doc_id db).1.2
  = if has_row db identity doc_id then document_accesses db
    else (document_accesses db ++ [mkAccess identity doc_id])%list.
Proof.
  destruct (download_gate cfg identity doc_id db) as [r|u d acc] eqn:Hg.
  - rewrite (download_doc_halt _ _ _ _ _ _ Hg). simpl. intros Hr.
    by destruct (halt_not_allow _ _ _ _ _ Hg).
  - rewrite (download_doc_pass _ rq _ _ _ _ _ _ Hg). simpl. intros _.
    destruct (log_download_ledger rq identity doc_id
      (if bool_decide (doc_id ∈ accessed_ids db identity) then db
       else add_access (mkAccess identity doc_id) db)) as (_ & _ & ->).
    case_bool_decide as Hin.
    + by rewrite (proj2 (has_row_accessed _ _ _) Hin).
    + by rewrite (has_row_false _ _ _ Hin).
Qed.

(** C9. Every allowed download of a pair that has no ledger row appends
    the row (identity, doc_id) and commits it, whatever the role or the
    subscription; an admin is allowed whatever the status of the document,
    so an admin's first download of a pending or rejected document is
    recorded like any other. *)
Theorem allowed_download_records_access cfg rq identity doc_id db :
  (decision_of (download_doc cfg rq identity doc_id db).1.1 = Some Allow →
   has_row db identity doc_id = false →
   document_accesses (download_doc cfg rq identity doc_id db).1.2
     = (document_accesses db ++ [mkAccess identity doc_id])%list
   ∧ CommittedAccess (mkAccess identity doc_id)
       ∈ (download_doc cfg rq identity doc_id db).2)
  ∧ (∀ user doc,
       users db !! identity = Some user →
       documents db !! doc_id = Some doc →
       role user = "admin" →
       decision_of (download_doc cfg rq identity doc_id db).1.1 = Some Allow).
Proof.
  split.
  - intros Hallow Hrow. split.
    + by rewrite (allowed_download_ledger _ _ _ _ _ Hallow), Hrow.
    + destruct (download_gate cfg identity doc_id db) as [r|u d acc] eqn:Hg.
      * rewrite (download_doc_halt _ _ _ _ _ _ Hg) in Hallow. simpl in Hallow.
        by destruct (halt_not_allow _ _ _ _ _ Hg).
      * rewrite (download_doc_pass _ rq _ _ _ _ _ _ Hg). simpl.
        rewrite bool_decide_eq_false_2.
        -- apply list_elem_of_here.
        -- intros Hin. apply has_row_accessed in Hin. congruence.
  - intros user doc Hu Hd Hr.
    rewrite (download_doc_pass _ rq _ _ _ _ _ _
               (admin_passes_gate cfg _ _ _ _ _ Hu Hd Hr)).
    simpl. apply serve_allows.
Qed.

(** C7. The audit commit cannot undo or change anything: with the audit
    commit failing, the response, the users, the documents and the ledger
    are what they are with it succeeding, and the audit table is
    untouched.  On an allowed download the handler's commits are the
    ledger commit (if the pair was new) followed by the audit commit or
    its rollback, and the ledger row is there in both cases. *)
Theorem audit_failure_is_absorbed cfg rq identity doc_id db :
  let ok := download_doc cfg (with_audit true rq) identity doc_id db in
  let ko := download_doc cfg (with_audit false rq) identity doc_id db in
  ko.1.1 = ok.1.1
  ∧ users ko.1.2 = users ok.1.2
  ∧ documents ko.1.2 = documents ok.1.2
  ∧ document_accesses ko.1.2 = document_accesses ok.1.2
  ∧ download_audits ko.1.2 = download_audits db
  ∧ (decision_of ok.1.1 = Some Allow →
     has_row ko.1.2 identity doc_id = true
     ∧ ∃ ledger_commits audit,
         (ledger_commits = [] ∨ ledger_commits = [CommittedAccess (mkAccess identity doc_id)])
         ∧ ok.2 = (ledger_commits ++ [CommittedAudit audit])%list
         ∧ ko.2 = (ledger_commits ++ [RolledBackAudit])%list
         ∧ download_audits ok.1.2 = (download_audits db ++ [audit])%list).
Proof.
  simpl.
  destruct (download_gate cfg identity doc_id db) as [r|u d acc] eqn:Hg.
  - rewrite !(download_doc_halt _ _ _ _ _ _ Hg). simpl.
    do 5 (split; [done|]). intros Hr.
    by destruct (halt_not_allow _ _ _ _ _ Hg).
  - rewrite !(download_doc_pass _ _ _ _ _ _ _ _ Hg). simpl.
    unfold log_download, serve. simpl.
    repeat split; try done.
    + by case_bool_decide.
    + case_bool_decide as Hin; simpl.
      * by apply has_row_accessed.
      * apply has_row_accessed. rewrite accessed_ids_add_same. set_solver.
    + eexists _, _. split; [|split; [done|split; [done|]]].
      * case_bool_decide; [by left|by right].
      * by case_bool_decide.
Qed.

(** ** Repeated downloads of one pair *)

(** The gate reads the users, the documents and the ledger, nothing else. *)
Lemma download_gate_ext cfg identity doc_id db db' :
  users db' = users db →
  documents db' = documents db →
  document_accesses db' = document_accesses db →
  download_gate cfg identity doc_id db' = download_gate cfg identity doc_id db.
Proof.
  intros Hu Hd Ha. unfold download_gate.
  by rewrite Hu, Hd, (accessed_ids_ledger _ _ _ Ha).
Qed.

(** Once the pair is in the ledger the quota test cannot stop the request. *)
Lemma download_gate_settled cfg identity doc_id db db' user doc accessed :
  download_gate cfg identity doc_id db = Pass user doc accessed →
  users db' = users db →
  documents db' = documents db →
  doc_id ∈ accessed_ids db' identity →
  download_gate cfg identity doc_id db' = Pass user doc (accessed_ids db' identity).
Proof.
  intros Hg Hu Hd Hin.
  destruct (download_gate_pass _ _ _ _ _ _ _ Hg) as (Hlu & Hld & _).
  revert Hg. unfold download_gate. rewrite Hu, Hd, Hlu, Hld.
  destruct (negb (status doc =? "approved") && negb (role user =? "admin")); [done|].
  simpl. intros _. rewrite (bool_decide_eq_true_2 _ Hin). simpl.
  by rewrite andb_false_r.
Qed.

Lemma allowed_download_settles cfg rq identity doc_id db :
  decision_of (download_doc cfg rq identity doc_id db).1.1 = Some Allow →
  settled cfg identity doc_id (download_doc cfg rq identity doc_id db).1.2.
Proof.
  destruct (download_gate cfg identity doc_id db) as [r|u d acc] eqn:Hg.
  - rewrite (download_doc_halt _ _ _ _ _ _ Hg). simpl. intros Hr.
    by destruct (halt_not_allow _ _ _ _ _ Hg).
  - intros _. rewrite (download_doc_pass _ rq _ _ _ _ _ _ Hg). simpl.
    set (db1 := if bool_decide (doc_id ∈ accessed_ids db identity) then db
                else add_access (mkAccess identity doc_id) db).
    destruct (log_download_ledger rq identity doc_id db1) as (Hu & Hd & Ha).
    assert (Hin : doc_id ∈ accessed_ids (log_download rq identity doc_id db1).1 identity).
    { rewrite (accessed_ids_ledger _ _ _ Ha). subst db1.
      case_bool_decide; [done|]. rewrite accessed_ids_add_same. set_solver. }
    split; [done|]. exists u, d.
    apply (download_gate_settled cfg identity doc_id db _ u d acc Hg); [| |done].
    + rewrite Hu. subst db1. by case_bool_decide.
    + rewrite Hd. subst db1. by case_bool_decide.
Qed.

(** A download in a settled store is granted and leaves the ledger alone. *)
Lemma settled_download cfg rq identity doc_id db :
  settled cfg identity doc_id db →
  decision_of (download_doc cfg rq identity doc_id db).1.1 = Some Allow
  ∧ document_accesses (download_doc cfg rq identity doc_id db).1.2 = document_accesses db
  ∧ forallb (λ e, negb (is_access_commit e)) (download_doc cfg rq identity doc_id db).2 = true.
Proof.
  intros (Hin & u & d & Hg).
  rewrite (download_doc_pass _ rq _ _ _ _ _ _ Hg). simpl.
  rewrite (bool_decide_eq_true_2 _ Hin).
  split; [apply serve_allows|]. split.
  - by destruct (log_download_ledger rq identity doc_id db) as (_ & _ & ->).
  - unfold log_download. by destruct (audit_commit_ok rq).
Qed.

Lemma downloads_settled cfg rqs identity doc_id db :
  settled cfg identity doc_id db →
  document_accesses (downloads cfg rqs identity doc_id db).2 = document_accesses db
  ∧ Forall (λ re, decision_of re.1 = Some Allow
                  ∧ forallb (λ e, negb (is_access_commit e)) re.2 = true)
           (downloads cfg rqs identity doc_id db).1.
Proof.
  revert db. induction rqs as [|rq rqs IH]; intros db Hs; simpl; [done|].
  destruct (settled_download cfg rq identity doc_id db Hs) as (Hr & Ha & He).
  pose proof (allowed_download_settles cfg rq identity doc_id db Hr) as Hs'.
  destruct (download_doc cfg rq identity doc_id db) as [[r db1] evs]. simpl in *.
  destruct (IH db1 Hs') as [IHa IHf].
  destruct (downloads cfg rqs identity doc_id db1) as [rs db2]. simpl in *.
  split; [congruence|]. by constructor.
Qed.

Lemma downloads_denied cfg rqs identity doc_id db r :
  download_gate cfg identity doc_id db = Halt r →
  (downloads cfg rqs identity doc_id db).2 = db.
Proof.
  intros Hg. induction rqs as [|rq rqs IH]; simpl; [done|].
  rewrite (download_doc_halt _ _ _ _ _ _ Hg).
  destruct (downloads cfg rqs identity doc_id db) as [rs db2]. by simpl in *.
Qed.

(** C4. Downloading the same (user, document) pair again, any number of
    times, leaves the ledger exactly as the first download left it (so its
    cardinality too); if the first download was granted, every repetition
    is granted and none of them commits a ledger row. *)
Theorem repeated_download_keeps_ledger cfg rq rqs identity doc_id db :
  let first := download_doc cfg rq identity doc_id db in
  let again := downloads cfg rqs identity doc_id first.1.2 in
  document_accesses again.2 = document_accesses first.1.2
  ∧ size (accessed_ids again.2 identity) = size (accessed_ids first.1.2 identity)
  ∧ (decision_of first.1.1 = Some Allow →
     Forall (λ re, decision_of re.1 = Some Allow
                   ∧ forallb (λ e, negb (is_access_commit e)) re.2 = true)
            again.1).
Proof.
  simpl.
  assert (Hledger : document_accesses
            (downloads cfg rqs identity doc_id (download_doc cfg rq identity doc_id db).1.2).2
          = document_accesses (download_doc cfg rq identity doc_id db).1.2).
  { destruct (download_gate cfg identity doc_id db) as [r|u d acc] eqn:Hg.
    - rewrite (download_doc_halt _ _ _ _ _ _ Hg). simpl.
      by rewrite (downloads_denied _ _ _ _ _ _ Hg).
    - apply downloads_settled, allowed_download_settles.
      rewrite (download_doc_pass _ rq _ _ _ _ _ _ Hg). apply serve_allows. }
  split; [done|]. split.
  - by rewrite (accessed_ids_ledger _ _ _ Hledger).
  - intros Hr. by apply downloads_settled, allowed_download_settles.
Qed.

(** ** Payment events *)

Lemma set_subscription_lookup st uid user db :
  users (set_subscription st uid user db) !! uid
  = Some (mkUser (email user) (role user) st).
Proof. unfold set_subscription; simpl. apply lookup_insert_eq. Qed.

Lemma set_subscription_other st uid user db uid' :
  uid' ≠ uid → users (set_subscription st uid user db) !! uid' = users db !! uid'.
Proof. intros Hne. unfold set_subscription; simpl. by apply lookup_insert_ne. Qed.

(** Writing the column twice is writing it once with the later value. *)
Lemma set_subscription_twice st st' uid user db :
  set_subscription st' uid (mkUser (email user) (role user) st)
                   (set_subscription st uid user db)
  = set_subscription st' uid user db.
Proof. unfold set_subscription; simpl. by rewrite insert_insert_eq. Qed.

Section Events.
Context (py_int : string → option Z).

Lemma reconcile_resolved st ref uid user db :
  truthy ref = true →
  py_int ref = Some uid →
  users db !! uid = Some user →
  reconcile py_int st (Some ref) db = Some (set_subscription st uid user db).
Proof. intros Ht Hp Hu. unfold reconcile. by rewrite Ht, Hp, Hu. Qed.

Lemma process_completed ref uid user db :
  truthy ref = true → py_int ref = Some uid → users db !! uid = Some user →
  process_event py_int (completed ref) db = Some (set_subscription "paid" uid user db).
Proof. intros. unfold process_event. simpl. by apply reconcile_resolved. Qed.

Lemma process_canceled ref uid user db :
  truthy ref = true → py_int ref = Some uid → users db !! uid = Some user →
  process_event py_int (canceled ref) db = Some (set_subscription "free" uid user db).
Proof. intros. unfold process_event. simpl. by apply reconcile_resolved. Qed.

Lemma deliver_S n ev db :
  deliver py_int (S n) ev db
  = match process_event py_int ev db with
    | Some db' => deliver py_int n ev db'
    | None => None
    end.
Proof. reflexivity. Qed.

(** Any number of deliveries of [completed] is one delivery. *)
Lemma deliver_completed ref uid user db n :
  truthy ref = true → py_int ref = Some uid → users db !! uid = Some user →
  deliver py_int (S n) (completed ref) db = Some (set_subscription "paid" uid user db).
Proof.
  intros Ht Hp Hu. revert user db Hu.
  induction n as [|n IH]; intros user db Hu.
  - by rewrite deliver_S, (process_completed _ _ _ _ Ht Hp Hu).
  - rewrite deliver_S, (process_completed _ _ _ _ Ht Hp Hu).
    rewrite (IH _ _ (set_subscription_lookup "paid" uid user db)).
    by rewrite set_subscription_twice.
Qed.

(** C5. For an event reference that resolves to an existing user: the
    [completed] event delivered N >= 1 times leaves that user paid, and
    the [canceled] event processed after any number (zero included) of
    [completed] deliveries leaves that user free. *)
Theorem payment_events_last_write_wins ref uid user db :
  truthy ref = true →
  py_int ref = Some uid →
  users db !! uid = Some user →
  (∀ n, (1 ≤ n)%nat →
     ∃ db', deliver py_int n (completed ref) db = Some db'
            ∧ subscription_of db' uid = Some "paid")
  ∧ (∀ n, ∃ db' db'',
       deliver py_int n (completed ref) db = Some db'
       ∧ process_event py_int (canceled ref) db' = Some db''
       ∧ subscription_of db'' uid = Some "free").
Proof.
  intros Ht Hp Hu. split.
  - intros [|n] Hn; [lia|].
    eexists. split; [by apply deliver_completed|].
    unfold subscription_of. by rewrite set_subscription_lookup.
  - intros [|n].
    + eexists db, _. split; [done|]. split; [by eapply process_canceled|].
      unfold subscription_of. by rewrite set_subscription_lookup.
    + eexists _, _. split; [by apply deliver_completed|].
      split.
      * eapply process_canceled; [done|done|apply set_subscription_lookup].
      * unfold subscription_of. by rewrite set_subscription_lookup.
Qed.

(** What the webhook acknowledges without touching the store: an event
    of another kind, an event without a user reference or with an empty
    one, and an event whose reference is an integer no user row has. *)
Lemma webhook_ignores cfg ev db :
  stripe cfg = true →
  truthy (STRIPE_WEBHOOK_SECRET cfg) = true →
  ((ev_type ev =? "checkout.session.completed") = false
     ∧ (ev_type ev =? "customer.subscription.deleted") = false)
  ∨ truthy_opt (ev_user_id ev) = false
  ∨ (∃ ref uid, ev_user_id ev = Some ref ∧ py_int ref = Some uid
                ∧ users db !! uid = None) →
  billing_webhook cfg py_int (Some ev) db = (Received200, db).
Proof.
  intros Hs Hw Hcases. unfold billing_webhook. rewrite Hs, Hw. simpl.
  assert (Hrec : ∀ st, truthy_opt (ev_user_id ev) = false
                 ∨ (∃ ref uid, ev_user_id ev = Some ref ∧ py_int ref = Some uid
                               ∧ users db !! uid = None) →
                 reconcile py_int st (ev_user_id ev) db = Some db).
  { intros st [Hf|(ref & uid & -> & Hp & Hu)]; unfold reconcile.
    - destruct (ev_user_id ev) as [ref|]; [|done]. simpl in Hf. by rewrite Hf.
    - rewrite Hp, Hu. by destruct (truthy ref). }
  unfold process_event.
  destruct Hcases as [[H1 H2]|Hrest].
  - by rewrite H1, H2.
  - destruct (ev_type ev =? "checkout.session.completed");
      [by rewrite Hrec|].
    destruct (ev_type ev =? "customer.subscription.deleted");
      [by rewrite Hrec|done].
Qed.

(** C8, where the code departs from the claim. A verified [completed]
    or [canceled] event whose user reference is not an integer literal
    resolves to no user, yet it is not acknowledged: [int(user_id)]
    raises, the handler answers 500 and the store stays as it was.  The
    same reference handed to [_current_user] is absorbed there. *)
Theorem webhook_raises_on_unreadable_reference cfg ev ref db :
  stripe cfg = true →
  truthy (STRIPE_WEBHOOK_SECRET cfg) = true →
  (ev_type ev =? "checkout.session.completed") = true
    ∨ (ev_type ev =? "customer.subscription.deleted") = true →
  ev_user_id ev = Some ref →
  truthy ref = true →
  py_int ref = None →
  billing_webhook cfg py_int (Some ev) db = (WebhookUnhandled500, db)
  ∧ _current_user py_int (Some ref) db = None.
Proof.
  intros Hs Hw Hk Hr Ht Hp. split.
  - unfold billing_webhook, process_event, reconcile.
    rewrite Hs, Hw, Hr, Ht, Hp. simpl.
    destruct Hk as [->| ->]; [done|].
    by destruct (ev_type ev =? "checkout.session.completed").
  - unfold _current_user. by rewrite Ht, Hp.
Qed.

End Events.

(** ** Upgrading after a quota denial *)

(** What a 402 tells about the store. *)
Lemma upgrade_required_inv cfg rq identity doc_id db :
  (download_doc cfg rq identity doc_id db).1.1 = UpgradeRequired402 →
  ∃ user doc,
    users db !! identity = Some user
    ∧ documents db !! doc_id = Some doc
    ∧ negb (status doc =? "approved") && negb (role user =? "admin") = false
    ∧ doc_id ∉ accessed_ids db identity.
Proof.
  destruct (download_gate cfg identity doc_id db) as [r|u d acc] eqn:Hg.
  - rewrite (download_doc_halt _ _ _ _ _ _ Hg). simpl. intros ->.
    revert Hg. unfold download_gate.
    destruct (documents db !! doc_id) as [doc|]; [|done].
    destruct (users db !! identity) as [user|]; [|done].
    destruct (negb (status doc =? "approved") && negb (role user =? "admin")) eqn:Hread;
      [done|].
    simpl. case_bool_decide as Hin; simpl.
    + by rewrite andb_false_r.
    + intros _. by exists user, doc.
  - rewrite (download_doc_pass _ rq _ _ _ _ _ _ Hg). simpl. intros Hs.
    pose proof (serve_allows cfg rq d) as Ha. by rewrite Hs in Ha.
Qed.

(** C6. A non-admin user with ledger {d1, d2} under FREE_DOC_LIMIT = 2 was
    refused d3 with 402.  Processing [completed] for that user makes the
    user paid; the next request for d3 is then allowed and the user's
    ledger becomes {d1, d2, d3}: the paid download records its row. *)
Theorem paid_after_denial_downloads_and_records
    cfg py_int rq rq' db uid user ref d1 d2 d3 :
  FREE_DOC_LIMIT cfg = 2%Z →
  users db !! uid = Some user →
  is_admin user = false →
  accessed_ids db uid = {[d1; d2]} →
  (download_doc cfg rq uid d3 db).1.1 = UpgradeRequired402 →
  truthy ref = true →
  py_int ref = Some uid →
  ∃ db1,
    process_event py_int (completed ref) db = Some db1
    ∧ subscription_of db1 uid = Some "paid"
    ∧ decision_of (download_doc cfg rq' uid d3 db1).1.1 = Some Allow
    ∧ accessed_ids (download_doc cfg rq' uid d3 db1).1.2 uid = {[d1; d2; d3]}.
Proof.
  intros _ Hu _ Hacc H402 Ht Hp.
  destruct (upgrade_required_inv _ _ _ _ _ H402) as (user' & doc & Hu' & Hd & Hread & Hnin).
  rewrite Hu in Hu'. injection Hu' as <-.
  exists (set_subscription "paid" uid user db).
  split; [by apply process_completed|].
  split; [unfold subscription_of; by rewrite set_subscription_lookup|].
  set (db1 := set_subscription "paid" uid user db).
  assert (Hg : download_gate cfg uid d3 db1
               = Pass (mkUser (email user) (role user) "paid") doc (accessed_ids db1 uid)).
  { unfold download_gate. subst db1. rewrite set_subscription_lookup. simpl.
    rewrite Hd, Hread. simpl. by rewrite andb_false_r. }
  rewrite (download_doc_pass _ rq' _ _ _ _ _ _ Hg). simpl.
  split; [apply serve_allows|].
  assert (Hsame : accessed_ids db1 uid = accessed_ids db uid) by done.
  rewrite Hsame, (bool_decide_eq_false_2 _ Hnin).
  rewrite (accessed_ids_ledger (add_access (mkAccess uid d3) db1)
             (log_download rq' uid d3 (add_access (mkAccess uid d3) db1)).1 uid).
  - rewrite accessed_ids_add_same, Hsame, Hacc. set_solver.
  - by destruct (log_download_ledger rq' uid d3 (add_access (mkAccess uid d3) db1))
      as (_ & _ & ->).
Qed.

(** ** The quota bound along a run *)

Lemma download_doc_core cfg rq identity doc_id db :
  users (download_doc cfg rq identity doc_id db).1.2 = users db
  ∧ documents (download_doc cfg rq identity doc_id db).1.2 = documents db.
Proof.
  destruct (download_gate cfg identity doc_id db) as [r|u d acc] eqn:Hg.
  - by rewrite (download_doc_halt _ _ _ _ _ _ Hg).
  - rewrite (download_doc_pass _ rq _ _ _ _ _ _ Hg). simpl.
    destruct (log_download_ledger rq identity doc_id
      (if bool_decide (doc_id ∈ accessed_ids db identity) then db
       else add_access (mkAccess identity doc_id) db)) as (-> & -> & _).
    by case_bool_decide.
Qed.

(** A download touches the ledger of the requesting user only. *)
Lemma download_doc_other cfg rq identity doc_id db uid :
  uid ≠ identity →
  accessed_ids (download_doc cfg rq identity doc_id db).1.2 uid = accessed_ids db uid.
Proof.
  intros Hne.
  destruct (download_gate cfg identity doc_id db) as [r|u d acc] eqn:Hg.
  - by rewrite (download_doc_halt _ _ _ _ _ _ Hg).
  - rewrite (download_doc_pass _ rq _ _ _ _ _ _ Hg). simpl.
    set (db1 := if bool_decide (doc_id ∈ accessed_ids db identity) then db
                else add_access (mkAccess identity doc_id) db).
    destruct (log_download_ledger rq identity doc_id db1) as (_ & _ & Ha).
    rewrite (accessed_ids_ledger _ _ _ Ha). subst db1.
    case_bool_decide; [done|]. by apply accessed_ids_add_other.
Qed.

(** The heart of the quota: a download by a user who is neither admin nor
    paid keeps that user's ledger within the limit. *)
Lemma download_doc_within_quota cfg rq identity doc_id db user :
  users db !! identity = Some user →
  is_admin user = false →
  is_paid user = false →
  within_quota cfg db identity →
  within_quota cfg (download_doc cfg rq identity doc_id db).1.2 identity.
Proof.
  unfold is_admin, is_paid, within_quota. intros Hu Hadm Hpaid Hq.
  destruct (download_gate cfg identity doc_id db) as [r|u d acc] eqn:Hg.
  - by rewrite (download_doc_halt _ _ _ _ _ _ Hg).
  - rewrite (download_doc_pass _ rq _ _ _ _ _ _ Hg). simpl.
    set (db1 := if bool_decide (doc_id ∈ accessed_ids db identity) then db
                else add_access (mkAccess identity doc_id) db).
    destruct (log_download_ledger rq identity doc_id db1) as (_ & _ & Ha).
    rewrite (accessed_ids_ledger _ _ _ Ha). subst db1.
    revert Hg. unfold download_gate. rewrite Hu.
    destruct (documents db !! doc_id) as [doc|]; [|done].
    destruct (negb (status doc =? "approved") && negb (role user =? "admin")); [done|].
    simpl. rewrite Hadm, Hpaid. simpl.
    case_bool_decide as Hin; simpl; [done|].
    destruct (Z.leb_spec (FREE_DOC_LIMIT cfg) (Z.of_nat (size (accessed_ids db identity))))
      as [Hle|Hlt]; [done|].
    intros _. rewrite accessed_ids_add_same.
    rewrite size_union by (by apply disjoint_singleton_r).
    rewrite size_singleton. lia.
Qed.

Section Runs.
Context (cfg : Config) (py_int : string → option Z).

Lemma reconcile_users st user_id db db' uid u' :
  reconcile py_int st user_id db = Some db' →
  users db' !! uid = Some u' →
  ∃ u, users db !! uid = Some u ∧ role u = role u'.
Proof.
  unfold reconcile. intros Hr Hl.
  destruct user_id as [ref|]; [|injection Hr as <-; eauto].
  destruct (truthy ref); [|injection Hr as <-; eauto].
  destruct (py_int ref) as [target|]; [|done].
  destruct (users db !! target) as [user|] eqn:Ht; [|injection Hr as <-; eauto].
  injection Hr as <-.
  destruct (decide (uid = target)) as [->|Hne].
  - rewrite set_subscription_lookup in Hl. injection Hl as <-. eauto.
  - rewrite set_subscription_other in Hl by done. eauto.
Qed.

Lemma reconcile_ledger st user_id db db' :
  reconcile py_int st user_id db = Some db' →
  document_accesses db' = document_accesses db.
Proof.
  unfold reconcile. intros Hr.
  repeat (case_match; try done); by injection Hr as <-.
Qed.

(** No operation creates a user row or changes a role. *)
Lemma step_users db op uid u' :
  users (step cfg py_int db op) !! uid = Some u' →
  ∃ u, users db !! uid = Some u ∧ role u = role u'.
Proof.
  destruct op as [rq identity doc_id|session identity|verified|identity doc_id|identity doc_id];
    simpl.
  - destruct (download_doc_core cfg rq identity doc_id db) as [-> _]. eauto.
  - unfold start_checkout.
    destruct (stripe cfg && truthy (STRIPE_SECRET_KEY cfg) && truthy (STRIPE_PRICE_ID cfg)).
    { repeat case_match; simpl; eauto. }
    destruct (SIMULATE_PAYMENTS cfg); [|simpl; eauto].
    destruct (users db !! identity) as [user|] eqn:Hu; [|simpl; eauto].
    simpl. intros Hl.
    destruct (decide (uid = identity)) as [->|Hne].
    + rewrite lookup_insert_eq in Hl. injection Hl as <-. eauto.
    + rewrite lookup_insert_ne in Hl by done. eauto.
  - unfold billing_webhook.
    destruct (negb (stripe cfg) || negb (truthy (STRIPE_WEBHOOK_SECRET cfg)));
      [simpl; eauto|].
    destruct verified as [ev|]; [|simpl; eauto].
    destruct (process_event py_int ev db) as [db'|] eqn:Hp; [|simpl; eauto].
    simpl. revert Hp. unfold process_event.
    repeat case_match; try (intros [= <-]; by eauto); apply reconcile_users.
  - unfold approve_doc, moderate. repeat case_match; simpl; eauto.
  - unfold reject_doc, moderate. repeat case_match; simpl; eauto.
Qed.

(** One operation keeps the ledger of a row that is neither admin nor
    paid within the limit. *)
Lemma step_within_quota db op uid u :
  users db !! uid = Some u →
  is_admin u = false →
  is_paid u = false →
  within_quota cfg db uid →
  within_quota cfg (step cfg py_int db op) uid.
Proof.
  intros Hu Hadm Hpaid Hq.
  destruct op as [rq identity doc_id|session identity|verified|identity doc_id|identity doc_id];
    simpl.
  - destruct (decide (uid = identity)) as [->|Hne].
    + by apply (download_doc_within_quota cfg rq identity doc_id db u).
    + unfold within_quota. by rewrite download_doc_other.
  - unfold within_quota, start_checkout. repeat case_match; simpl; done.
  - unfold within_quota, billing_webhook.
    destruct (negb (stripe cfg) || negb (truthy (STRIPE_WEBHOOK_SECRET cfg))); [done|].
    destruct verified as [ev|]; [|done].
    destruct (process_event py_int ev db) as [db'|] eqn:Hp; [|done].
    simpl. rewrite (accessed_ids_ledger db db'); [done|].
    revert Hp. unfold process_event.
    repeat case_match; try (by intros [= <-]); apply reconcile_ledger.
  - unfold within_quota, approve_doc, moderate. repeat case_match; simpl; done.
  - unfold within_quota, reject_doc, moderate. repeat case_match; simpl; done.
Qed.

Lemma bounded_row_run ops db uid :
  bounded_row cfg db uid →
  forallb (unpaid_in uid) (states cfg py_int ops db) = true →
  bounded_row cfg (run cfg py_int ops db) uid.
Proof.
  revert db. induction ops as [|op ops IH]; intros db Hb Hun; [done|].
  simpl in Hun. apply andb_true_iff in Hun as [Hhere Hrest].
  apply (IH (step cfg py_int db op)); [|done].
  intros u' Hu' Hadm' _.
  destruct (step_users _ _ _ _ Hu') as (u & Hu & Hrole).
  assert (is_admin u = false) as Hadm by (unfold is_admin in *; congruence).
  assert (is_paid u = false) as Hpaid.
  { unfold unpaid_in in Hhere. rewrite Hu in Hhere. by apply negb_true_iff. }
  eapply step_within_quota; eauto.
Qed.

(** C2, as the code has it. Start from a store in which every row that
    is neither admin nor paid is within the limit (an empty ledger with
    a non-negative limit is one).  After any sequence of downloads,
    checkouts, webhook deliveries, approvals and rejections served one
    after another, a non-admin user who was not paid in any state of the
    run, the last one included, has at most FREE_DOC_LIMIT distinct
    documents in the ledger. *)
Theorem quota_holds_while_never_paid ops db0 uid u :
  quota_inv cfg db0 →
  forallb (unpaid_in uid) (states cfg py_int ops db0) = true →
  users (run cfg py_int ops db0) !! uid = Some u →
  is_admin u = false →
  within_quota cfg (run cfg py_int ops db0) uid.
Proof.
  intros Hinv Hun Hu Hadm.
  assert (Hb : bounded_row cfg db0 uid).
  { intros u0 Hu0. by apply (Hinv uid u0). }
  apply (bounded_row_run ops db0 uid Hb Hun u Hu Hadm).
  assert (Hlast : unpaid_in uid (run cfg py_int ops db0) = true).
  { clear -Hun. revert db0 Hun. induction ops as [|op ops IH]; intros db0 Hun; simpl in *.
    - by apply andb_true_iff in Hun as [? _].
    - apply andb_true_iff in Hun as [_ ?]. by apply IH. }
  unfold unpaid_in in Hlast. rewrite Hu in Hlast. by apply negb_true_iff.
Qed.

End Runs.

(** ** Two first-time downloads at one free slot *)

Lemma granted_core rq uid doc_id db :
  users (granted rq uid doc_id db) = users db
  ∧ documents (granted rq uid doc_id db) = documents db
  ∧ accessed_ids (granted rq uid doc_id db) uid = accessed_ids db uid ∪ {[doc_id]}.
Proof.
  unfold granted.
  destruct (log_download_ledger rq uid doc_id (add_access (mkAccess uid doc_id) db))
    as (-> & -> & Ha).
  by rewrite (accessed_ids_ledger _ _ _ Ha), accessed_ids_add_same.
Qed.

Lemma ledger_count_granted rq uid doc_id db :
  doc_id ∉ accessed_ids db uid →
  ledger_count (granted rq uid doc_id db) uid = (ledger_count db uid + 1)%Z.
Proof.
  intros Hnin. unfold ledger_count.
  destruct (granted_core rq uid doc_id db) as (_ & _ & ->).
  rewrite size_union by (by apply disjoint_singleton_r).
  rewrite size_singleton. lia.
Qed.

Lemma still_new (X : gset Z) (d d' : Z) :
  d ∉ X → d ≠ d' → d ∉ X ∪ {[d']}.
Proof.
  intros Hx Hne [Hin|Hin]%elem_of_union; [done|].
  by apply elem_of_singleton in Hin.
Qed.

Section OneFreeSlot.
Context (cfg : Config) (uid : Z) (user : User).
Hypothesis user_not_admin : is_admin user = false.
Hypothesis user_free : subscription_status user = "free".

(** A free user with room left passes the gate for an approved document. *)
Lemma advance_ready_open rq doc_id doc db :
  users db !! uid = Some user →
  documents db !! doc_id = Some doc →
  status doc = "approved" →
  (ledger_count db uid < FREE_DOC_LIMIT cfg)%Z →
  advance cfg (mkHandler rq uid doc_id Ready) db
  = (mkHandler rq uid doc_id (Checked doc (accessed_ids db uid)), db).
Proof.
  intros Hu Hd Hs Hlt. unfold advance, download_gate, ledger_count in *. simpl.
  rewrite Hu, Hd, Hs. simpl.
  destruct (Z.leb_spec (FREE_DOC_LIMIT cfg) (Z.of_nat (size (accessed_ids db uid))));
    [lia|].
  by rewrite !andb_false_r.
Qed.

(** A free user with no room left is stopped at a new document. *)
Lemma advance_ready_full rq doc_id doc db :
  users db !! uid = Some user →
  documents db !! doc_id = Some doc →
  status doc = "approved" →
  doc_id ∉ accessed_ids db uid →
  (FREE_DOC_LIMIT cfg ≤ ledger_count db uid)%Z →
  advance cfg (mkHandler rq uid doc_id Ready) db
  = (mkHandler rq uid doc_id (Finished UpgradeRequired402), db).
Proof.
  intros Hu Hd Hs Hnin Hle. unfold advance, download_gate, ledger_count in *. simpl.
  unfold is_admin in user_not_admin.
  rewrite Hu, Hd, Hs, user_not_admin, user_free. simpl.
  rewrite (bool_decide_eq_false_2 _ Hnin). simpl.
  by rewrite (proj2 (Z.leb_le _ _) Hle).
Qed.

(** A handler past the gate inserts its row whatever has happened to the
    ledger meanwhile, as long as the very pair is still absent. *)
Lemma advance_checked_new rq doc_id doc accessed db :
  doc_id ∉ accessed →
  doc_id ∉ accessed_ids db uid →
  advance cfg (mkHandler rq uid doc_id (Checked doc accessed)) db
  = (mkHandler rq uid doc_id (Finished (serve cfg rq doc)), granted rq uid doc_id db).
Proof.
  intros Hstale Hnow. unfold advance, download_grant, record_access, granted. simpl.
  rewrite (bool_decide_eq_false_2 _ Hstale), (has_row_false _ _ _ Hnow).
  by destruct (log_download rq uid doc_id (add_access (mkAccess uid doc_id) db)).
Qed.

Context (rqa rqb : DownloadRequest) (d5 d6 : Z) (doc5 doc6 : Document) (db : DB).
Hypothesis user_row : users db !! uid = Some user.
Hypothesis doc5_row : documents db !! d5 = Some doc5.
Hypothesis doc6_row : documents db !! d6 = Some doc6.
Hypothesis doc5_approved : status doc5 = "approved".
Hypothesis doc6_approved : status doc6 = "approved".
Hypothesis distinct : d5 ≠ d6.
Hypothesis d5_new : d5 ∉ accessed_ids db uid.
Hypothesis d6_new : d6 ∉ accessed_ids db uid.
Hypothesis one_slot : ledger_count db uid = (FREE_DOC_LIMIT cfg - 1)%Z.

(** The first handler finishes, then the second runs. *)
Lemma serial_first_wins :
  interleave cfg [true; true; false; false]
             (mkHandler rqa uid d5 Ready) (mkHandler rqb uid d6 Ready) db
  = (mkHandler rqa uid d5 (Finished (serve cfg rqa doc5)),
     mkHandler rqb uid d6 (Finished UpgradeRequired402),
     granted rqa uid d5 db).
Proof.
  destruct (granted_core rqa uid d5 db) as (Hu & Hd & Ha).
  cbn [interleave].
  rewrite (advance_ready_open rqa d5 doc5 db) by (done || lia).
  rewrite (advance_checked_new rqa d5 doc5 _ db) by done.
  rewrite (advance_ready_full rqb d6 doc6 (granted rqa uid d5 db)).
  - reflexivity.
  - by rewrite Hu.
  - by rewrite Hd.
  - done.
  - rewrite Ha. by apply still_new.
  - rewrite ledger_count_granted by done. lia.
Qed.

(** The second handler finishes, then the first runs. *)
Lemma serial_second_wins :
  interleave cfg [false; false; true; true]
             (mkHandler rqa uid d5 Ready) (mkHandler rqb uid d6 Ready) db
  = (mkHandler rqa uid d5 (Finished UpgradeRequired402),
     mkHandler rqb uid d6 (Finished (serve cfg rqb doc6)),
     granted rqb uid d6 db).
Proof.
  destruct (granted_core rqb uid d6 db) as (Hu & Hd & Ha).
  cbn [interleave].
  rewrite (advance_ready_open rqb d6 doc6 db) by (done || lia).
  rewrite (advance_checked_new rqb d6 doc6 _ db) by done.
  rewrite (advance_ready_full rqa d5 doc5 (granted rqb uid d6 db)).
  - reflexivity.
  - by rewrite Hu.
  - by rewrite Hd.
  - done.
  - rewrite Ha. by apply still_new.
  - rewrite ledger_count_granted by done. lia.
Qed.

(** Both handlers are past the gate before either inserts; the first
    then commits first. *)
Lemma overlap_first_commits (sched : list bool) :
  sched = [true; false; true; false] ∨ sched = [false; true; true; false] →
  interleave cfg sched (mkHandler rqa uid d5 Ready) (mkHandler rqb uid d6 Ready) db
  = (mkHandler rqa uid d5 (Finished (serve cfg rqa doc5)),
     mkHandler rqb uid d6 (Finished (serve cfg rqb doc6)),
     granted rqb uid d6 (granted rqa uid d5 db)).
Proof.
  destruct (granted_core rqa uid d5 db) as (_ & _ & Ha).
  assert (Hb : d6 ∉ accessed_ids (granted rqa uid d5 db) uid)
    by (rewrite Ha; by apply still_new).
  intros [-> | ->]; cbn [interleave].
  - rewrite (advance_ready_open rqa d5 doc5 db) by (done || lia).
    rewrite (advance_ready_open rqb d6 doc6 db) by (done || lia).
    rewrite (advance_checked_new rqa d5 doc5 _ db) by done.
    by rewrite (advance_checked_new rqb d6 doc6 _ (granted rqa uid d5 db)).
  - rewrite (advance_ready_open rqb d6 doc6 db) by (done || lia).
    rewrite (advance_ready_open rqa d5 doc5 db) by (done || lia).
    rewrite (advance_checked_new rqa d5 doc5 _ db) by done.
    by rewrite (advance_checked_new rqb d6 doc6 _ (granted rqa uid d5 db)).
Qed.

(** Both handlers are past the gate before either inserts; the second
    then commits first. *)
Lemma overlap_second_commits (sched : list bool) :
  sched = [true; false; false; true] ∨ sched = [false; true; false; true] →
  interleave cfg sched (mkHandler rqa uid d5 Ready) (mkHandler rqb uid d6 Ready) db
  = (mkHandler rqa uid d5 (Finished (serve cfg rqa doc5)),
     mkHandler rqb uid d6 (Finished (serve cfg rqb doc6)),
     granted rqa uid d5 (granted rqb uid d6 db)).
Proof.
  destruct (granted_core rqb uid d6 db) as (_ & _ & Ha).
  assert (Hb : d5 ∉ accessed_ids (granted rqb uid d6 db) uid)
    by (rewrite Ha; by apply still_new).
  intros [-> | ->]; cbn [interleave].
  - rewrite (advance_ready_open rqa d5 doc5 db) by (done || lia).
    rewrite (advance_ready_open rqb d6 doc6 db) by (done || lia).
    rewrite (advance_checked_new rqb d6 doc6 _ db) by done.
    by rewrite (advance_checked_new rqa d5 doc5 _ (granted rqb uid d6 db)).
  - rewrite (advance_ready_open rqb d6 doc6 db) by (done || lia).
    rewrite (advance_ready_open rqa d5 doc5 db) by (done || lia).
    rewrite (advance_checked_new rqb d6 doc6 _ db) by done.
    by rewrite (advance_checked_new rqa d5 doc5 _ (granted rqb uid d6 db)).
Qed.

End OneFreeSlot.

Lemma filter_bool_split (l : list bool) :
  (length (filter (λ x, x = true) l) + length (filter (λ x, x = false) l))%nat = length l.
Proof.
  induction l as [|[] l IH].
  - done.
  - rewrite filter_cons_True, filter_cons_False by done. simpl. lia.
  - rewrite filter_cons_False, filter_cons_True by done. simpl. lia.
Qed.

(** The six ways of giving two handlers their two steps each. *)
Lemma complete_cases sched :
  complete sched = true →
  sched = [true; true; false; false] ∨ sched = [false; false; true; true]
  ∨ sched = [true; false; true; false] ∨ sched = [false; true; true; false]
  ∨ sched = [true; false; false; true] ∨ sched = [false; true; false; true].
Proof.
  intros Hc.
  assert (length sched = 4%nat) as Hlen.
  { unfold complete in Hc. apply andb_true_iff in Hc as [H1 H2].
    apply Nat.eqb_eq in H1, H2. rewrite <- filter_bool_split. lia. }
  destruct sched as [|x1 [|x2 [|x3 [|x4 [|x5 rest]]]]]; try discriminate Hlen.
  destruct x1, x2, x3, x4; try discriminate Hc; tauto.
Qed.

(** C3, where the code departs from the claim. A free, non-admin user
    has exactly FREE_DOC_LIMIT - 1 documents in the ledger and two
    handlers serve first-time requests of that user for two different
    approved documents.  However their steps are scheduled, both handlers
    come to a decision.  If one handler finishes before the other starts,
    the quota test of lines 499-501 does what the claim asks: exactly one
    request is allowed, the other is refused with QuotaExceeded, and the
    ledger ends at FREE_DOC_LIMIT.  If both handlers read the ledger
    (line 498) before either inserts (lines 504-505), the test is passed
    twice: both requests are allowed and the ledger ends at
    FREE_DOC_LIMIT + 1, above the limit the test is there to enforce. *)
Theorem concurrent_downloads_at_last_slot
    cfg uid user rqa rqb d5 d6 doc5 doc6 db sched :
  is_admin user = false →
  subscription_status user = "free" →
  users db !! uid = Some user →
  documents db !! d5 = Some doc5 →
  documents db !! d6 = Some doc6 →
  status doc5 = "approved" →
  status doc6 = "approved" →
  d5 ≠ d6 →
  d5 ∉ accessed_ids db uid →
  d6 ∉ accessed_ids db uid →
  ledger_count db uid = (FREE_DOC_LIMIT cfg - 1)%Z →
  complete sched = true →
  let '(a, b, db') :=
    interleave cfg sched (mkHandler rqa uid d5 Ready) (mkHandler rqb uid d6 Ready) db in
  if serial sched
  then ((outcome a = Some Allow ∧ outcome b = Some (Deny QuotaExceeded))
        ∨ (outcome a = Some (Deny QuotaExceeded) ∧ outcome b = Some Allow))
       ∧ ledger_count db' uid = FREE_DOC_LIMIT cfg
  else outcome a = Some Allow ∧ outcome b = Some Allow
       ∧ ledger_count db' uid = (FREE_DOC_LIMIT cfg + 1)%Z.
Proof.
  intros Hadm Hfree Hu H5 H6 Ha5 Ha6 Hne Hn5 Hn6 Hslot Hc.
  assert (Hne' : d6 ≠ d5) by congruence.
  assert (Hn65 : d6 ∉ accessed_ids (granted rqa uid d5 db) uid).
  { destruct (granted_core rqa uid d5 db) as (_ & _ & ->). by apply still_new. }
  assert (Hn56 : d5 ∉ accessed_ids (granted rqb uid d6 db) uid).
  { destruct (granted_core rqb uid d6 db) as (_ & _ & ->). by apply still_new. }
  destruct (complete_cases sched Hc) as [->|[->|[Hs|[Hs|[Hs|Hs]]]]].
  - rewrite (serial_first_wins cfg uid user Hadm Hfree rqa rqb d5 d6 doc5 doc6 db) by done.
    simpl. unfold outcome; simpl. rewrite serve_allows.
    split; [by left|]. rewrite ledger_count_granted by done. lia.
  - rewrite (serial_second_wins cfg uid user Hadm Hfree rqa rqb d5 d6 doc5 doc6 db) by done.
    simpl. unfold outcome; simpl. rewrite serve_allows.
    split; [by right|]. rewrite ledger_count_granted by done. lia.
  - rewrite (overlap_first_commits cfg uid user rqa rqb d5 d6 doc5 doc6 db)
      by (done || by left).
    subst sched. simpl. unfold outcome; simpl. rewrite !serve_allows.
    do 2 (split; [done|]). rewrite !ledger_count_granted by done. lia.
  - rewrite (overlap_first_commits cfg uid user rqa rqb d5 d6 doc5 doc6 db)
      by (done || by right).
    subst sched. simpl. unfold outcome; simpl. rewrite !serve_allows.
    do 2 (split; [done|]). rewrite !ledger_count_granted by done. lia.
  - rewrite (overlap_second_commits cfg uid user rqa rqb d5 d6 doc5 doc6 db)
      by (done || by left).
    subst sched. simpl. unfold outcome; simpl. rewrite !serve_allows.
    do 2 (split; [done|]). rewrite !ledger_count_granted by done. lia.
  - rewrite (overlap_second_commits cfg uid user rqa rqb d5 d6 doc5 doc6 db)
      by (done || by right).
    subst sched. simpl. unfold outcome; simpl. rewrite !serve_allows.
    do 2 (split; [done|]). rewrite !ledger_count_granted by done. lia.
Qed.

(** An empty ledger under a non-negative limit is within quota. *)
Lemma quota_inv_empty_ledger cfg db :
  (0 ≤ FREE_DOC_LIMIT cfg)%Z → document_accesses db = [] → quota_inv cfg db.
Proof.
  intros Hlim Hnil uid u _ _ _. unfold within_quota, accessed_ids, accesses.
  rewrite Hnil. change (Z.of_nat (size (∅ : gset Z)) ≤ FREE_DOC_LIMIT cfg)%Z.
  rewrite size_empty. lia.
Qed.

(** ** The small deployment, run *)

Import Scenario.

(** C2 as stated fails. alice is free, then paid for three downloads,
    then free again through a [canceled] event: a free, non-admin user
    with three distinct documents under FREE_DOC_LIMIT = 2, reached from a
    store with an empty ledger. *)
Lemma free_user_over_quota_after_cancel :
  quota_inv cfg2 fresh_db
  ∧ users (run cfg2 int_on_digits upgrade_and_cancel fresh_db) !! 1%Z = Some alice
  ∧ is_admin alice = false
  ∧ subscription_status alice = "free"
  ∧ ledger_count (run cfg2 int_on_digits upgrade_and_cancel fresh_db) 1 = 3%Z
  ∧ ¬ within_quota cfg2 (run cfg2 int_on_digits upgrade_and_cancel fresh_db) 1.
Proof.
  split; [by apply quota_inv_empty_ledger|].
  repeat split; try reflexivity.
  unfold within_quota. vm_compute. intros H. by apply H.
Qed.

(** C3, the failing run. alice has one free slot left; the handlers for
    documents 2 and 3 both read the ledger before either inserts; both
    are allowed and the ledger ends with three documents under a limit of
    two. *)
Lemma both_overlapping_downloads_allowed :
  users one_slot_db !! 1%Z = Some alice
  ∧ is_admin alice = false
  ∧ subscription_status alice = "free"
  ∧ status <$> documents one_slot_db !! 2%Z = Some "approved"
  ∧ status <$> documents one_slot_db !! 3%Z = Some "approved"
  ∧ accessed_ids one_slot_db 1 = {[1%Z]}
  ∧ ledger_count one_slot_db 1 = (FREE_DOC_LIMIT cfg2 - 1)%Z
  ∧ complete [true; false; true; false] = true
  ∧ let '(a, b, db') :=
      interleave cfg2 [true; false; true; false]
                 (mkHandler rq0 1 2 Ready) (mkHandler rq0 1 3 Ready) one_slot_db in
    outcome a = Some Allow ∧ outcome b = Some Allow
    ∧ ledger_count db' 1 = 3%Z.
Proof. by vm_compute. Qed.

(** C8, the failing delivery: a verified [completed] event whose metadata
    carries the reference ["abc"] is answered with a 500. *)
Lemma webhook_raises_on_abc :
  billing_webhook cfg2 int_on_digits (Some (completed "abc")) fresh_db
  = (WebhookUnhandled500, fresh_db).
Proof. reflexivity. Qed.

Lemma download_doc_follows_policy_witness :
  decision_of (download_doc cfg2 rq0 1 3 full_db).1.1
  = Some (Policy.decide 2 full_db 1 alice 3 (paper "approved"))
  ∧ Policy.decide 2 full_db 1 alice 3 (paper "approved") = Deny QuotaExceeded.
Proof.
  split; [|reflexivity].
  apply (download_doc_follows_policy cfg2 rq0 1 3 full_db alice (paper "approved"));
    reflexivity.
Defined.

Lemma quota_holds_while_never_paid_witness :
  forallb (unpaid_in 1) (states cfg2 int_on_digits stay_free fresh_db) = true
  ∧ within_quota cfg2 (run cfg2 int_on_digits stay_free fresh_db) 1.
Proof.
  split; [reflexivity|].
  apply (quota_holds_while_never_paid cfg2 int_on_digits stay_free fresh_db 1 alice).
  - intros uid u _ _ _. by vm_compute.
  - reflexivity.
  - reflexivity.
  - reflexivity.
Defined.

Lemma concurrent_downloads_at_last_slot_witness :
  let '(a, b, db') :=
    interleave cfg2 [false; true; false; true]
               (mkHandler rq0 1 2 Ready) (mkHandler rq0 1 3 Ready) one_slot_db in
  outcome a = Some Allow ∧ outcome b = Some Allow
  ∧ ledger_count db' 1 = (2 + 1)%Z.
Proof.
  apply (concurrent_downloads_at_last_slot cfg2 1 alice rq0 rq0 2 3
           (paper "approved") (paper "approved") one_slot_db [false; true; false; true]);
    [reflexivity|reflexivity|reflexivity|reflexivity|reflexivity|reflexivity
    |reflexivity|discriminate|by vm_compute|by vm_compute|reflexivity|reflexivity].
Defined.

Lemma repeated_download_keeps_ledger_witness :
  document_accesses
    (downloads cfg2 [rq0; with_audit false rq0; rq0] 1 1
               (download_doc cfg2 rq0 1 1 fresh_db).1.2).2
  = [mkAccess 1 1].
Proof.
  destruct (repeated_download_keeps_ledger cfg2 rq0 [rq0; with_audit false rq0; rq0]
              1 1 fresh_db) as [Hledger _].
  exact Hledger.
Defined.

Lemma payment_events_last_write_wins_witness :
  (∃ db', deliver int_on_digits 3 (completed "1") fresh_db = Some db'
          ∧ subscription_of db' 1 = Some "paid")
  ∧ (∃ db' db'', deliver int_on_digits 2 (completed "1") fresh_db = Some db'
                 ∧ process_event int_on_digits (canceled "1") db' = Some db''
                 ∧ subscription_of db'' 1 = Some "free").
Proof.
  destruct (payment_events_last_write_wins int_on_digits "1" 1 alice fresh_db)
    as [Hpaid Hfree]; try reflexivity.
  split; [apply (Hpaid 3%nat); lia|apply (Hfree 2%nat)].
Defined.

Lemma paid_after_denial_downloads_and_records_witness :
  (download_doc cfg2 rq0 1 3 full_db).1.1 = UpgradeRequired402
  ∧ ∃ db1,
      process_event int_on_digits (completed "1") full_db = Some db1
      ∧ subscription_of db1 1 = Some "paid"
      ∧ decision_of (download_doc cfg2 rq0 1 3 db1).1.1 = Some Allow
      ∧ accessed_ids (download_doc cfg2 rq0 1 3 db1).1.2 1 = {[1%Z; 2%Z; 3%Z]}.
Proof.
  split; [reflexivity|].
  apply (paid_after_denial_downloads_and_records cfg2 int_on_digits rq0 rq0
           full_db 1 alice "1" 1 2 3); reflexivity.
Defined.

Lemma audit_failure_is_absorbed_witness :
  (download_doc cfg2 (with_audit false rq0) 1 1 fresh_db).1.1
  = (download_doc cfg2 (with_audit true rq0) 1 1 fresh_db).1.1
  ∧ document_accesses (download_doc cfg2 (with_audit false rq0) 1 1 fresh_db).1.2
    = [mkAccess 1 1].
Proof.
  destruct (audit_failure_is_absorbed cfg2 rq0 1 1 fresh_db)
    as (Hresp & _ & _ & Hledger & _).
  split; [exact Hresp|]. rewrite Hledger. reflexivity.
Defined.

Lemma webhook_raises_on_unreadable_reference_witness :
  int_on_digits "abc" = None
  ∧ billing_webhook cfg2 int_on_digits (Some (canceled "abc")) full_db
    = (WebhookUnhandled500, full_db)
  ∧ _current_user int_on_digits (Some "abc") full_db = None.
Proof.
  split; [reflexivity|].
  apply (webhook_raises_on_unreadable_reference int_on_digits cfg2 (canceled "abc") "abc");
    try reflexivity.
  by right.
Defined.

Lemma allowed_download_records_access_witness :
  document_accesses (download_doc cfg2 rq0 9 4 fresh_db).1.2 = [mkAccess 9 4]
  ∧ status (paper "pending") = "pending".
Proof.
  split; [|reflexivity].
  destruct (allowed_download_records_access cfg2 rq0 9 4 fresh_db) as [Hrec Hadmin].
  destruct Hrec as [Hledger _].
  - apply (Hadmin root (paper "pending")); reflexivity.
  - reflexivity.
  - exact Hledger.
Defined.

Lemma denied_download_writes_nothing_witness :
  decision_of (download_doc cfg2 rq0 1 4 one_slot_db).1.1 = Some (Deny NotAvailable)
  ∧ (download_doc cfg2 rq0 1 4 one_slot_db).1.2 = one_slot_db
  ∧ (download_doc cfg2 rq0 1 4 one_slot_db).2 = [].
Proof.
  split; [reflexivity|].
  apply (denied_download_writes_nothing cfg2 rq0 1 4 one_slot_db NotAvailable).
  reflexivity.
Defined.

(** * Further properties of the handlers *)

(** ** [download_doc]: lifecycle, subscription and limit edge cases *)

(** X1. A document that is not approved is answered 403 to every user
    that is not an admin, paid or not, whatever the ledger holds, and
    nothing is written. *)
Theorem unapproved_is_forbidden_to_non_admin cfg rq identity doc_id db user doc :
  users db !! identity = Some user →
  documents db !! doc_id = Some doc →
  role user ≠ "admin" →
  status doc ≠ "approved" →
  download_doc cfg rq identity doc_id db = (NotAvailable403, db, []).
Proof.
  intros Hu Hd Hr Hs.
  apply download_doc_halt. unfold download_gate. rewrite Hu, Hd.
  by rewrite (proj2 (String.eqb_neq _ _) Hr), (proj2 (String.eqb_neq _ _) Hs).
Qed.

(** X2. A paid user is never stopped by the quota: an approved document
    is granted however many documents the ledger already holds. *)
Theorem paid_download_ignores_quota cfg rq identity doc_id db user doc :
  users db !! identity = Some user →
  documents db !! doc_id = Some doc →
  subscription_status user = "paid" →
  status doc = "approved" →
  decision_of (download_doc cfg rq identity doc_id db).1.1 = Some Allow.
Proof.
  intros Hu Hd Hp Hs.
  assert (Hg : download_gate cfg identity doc_id db
               = Pass user doc (accessed_ids db identity)).
  { unfold download_gate. rewrite Hu, Hd, Hp, Hs. simpl. by rewrite andb_false_r. }
  rewrite (download_doc_pass _ rq _ _ _ _ _ _ Hg). apply serve_allows.
Qed.

(** X3. With FREE_DOC_LIMIT at zero or below, a user who is neither admin
    nor paid is granted an approved document exactly when the ledger
    already holds it: no new document can ever be opened. *)
Theorem no_new_documents_without_limit cfg rq identity doc_id db user doc :
  (FREE_DOC_LIMIT cfg ≤ 0)%Z →
  users db !! identity = Some user →
  documents db !! doc_id = Some doc →
  is_admin user = false →
  is_paid user = false →
  status doc = "approved" →
  (decision_of (download_doc cfg rq identity doc_id db).1.1 = Some Allow
   ↔ doc_id ∈ accessed_ids db identity)
  ∧ (doc_id ∉ accessed_ids db identity →
     download_doc cfg rq identity doc_id db = (UpgradeRequired402, db, [])).
Proof.
  unfold is_admin, is_paid. intros Hlim Hu Hd Hadm Hpaid Hs.
  assert (Hfull : doc_id ∉ accessed_ids db identity →
                  download_gate cfg identity doc_id db = Halt UpgradeRequired402).
  { intros Hnin. unfold download_gate. rewrite Hu, Hd, Hs, Hadm, Hpaid. simpl.
    rewrite (bool_decide_eq_false_2 _ Hnin). simpl.
    destruct (Z.leb_spec (FREE_DOC_LIMIT cfg) (Z.of_nat (size (accessed_ids db identity))));
      [done|lia]. }
  split; [|intros Hnin; by apply download_doc_halt, Hfull].
  split.
  - intros Hallow. destruct (decide (doc_id ∈ accessed_ids db identity)) as [|Hnin]; [done|].
    by rewrite (download_doc_halt _ _ _ _ _ _ (Hfull Hnin)) in Hallow.
  - intros Hin.
    assert (Hg : download_gate cfg identity doc_id db
                 = Pass user doc (accessed_ids db identity)).
    { unfold download_gate. rewrite Hu, Hd, Hs, Hadm, Hpaid. simpl.
      by rewrite (bool_decide_eq_true_2 _ Hin). }
    rewrite (download_doc_pass _ rq _ _ _ _ _ _ Hg). apply serve_allows.
Qed.

(** X4. For a document that exists, [download_doc] ends in an unhandled
    exception exactly when the token's user row does not exist: served
    one request at a time, a user who exists never trips over the
    uniqueness constraint of the ledger, whatever the ledger holds. *)
Theorem download_raises_only_without_user cfg rq identity doc_id db doc :
  documents db !! doc_id = Some doc →
  (download_doc cfg rq identity doc_id db).1.1 = Unhandled500
  ↔ users db !! identity = None.
Proof.
  intros Hd.
  destruct (download_gate cfg identity doc_id db) as [r|u d acc] eqn:Hg.
  - rewrite (download_doc_halt _ _ _ _ _ _ Hg). simpl.
    revert Hg. unfold download_gate. rewrite Hd.
    destruct (users db !! identity) as [user|].
    + repeat case_match; intros [= <-]; split; done.
    + by intros [= <-].
  - pose proof (serve_allows cfg rq d) as Hs.
    destruct (download_gate_pass _ _ _ _ _ _ _ Hg) as (Hu & _ & _).
    rewrite (download_doc_pass _ rq _ _ _ _ _ _ Hg). simpl. split.
    + intros Hr. by rewrite Hr in Hs.
    + intros Hnone. congruence.
Qed.

(** ** What a run keeps *)

Lemma has_row_elem db uid doc_id :
  mkAccess uid doc_id ∈ document_accesses db → has_row db uid doc_id = true.
Proof.
  intros Hin. unfold has_row. apply existsb_exists.
  exists (mkAccess uid doc_id). split; [by apply list_elem_of_In|].
  simpl. by rewrite !Z.eqb_refl.
Qed.

(** What one download does to the two row lists. *)
Lemma download_doc_rows cfg rq identity doc_id db :
  (document_accesses (download_doc cfg rq identity doc_id db).1.2 = document_accesses db
   ∨ (has_row db identity doc_id = false
      ∧ document_accesses (download_doc cfg rq identity doc_id db).1.2
        = (document_accesses db ++ [mkAccess identity doc_id])%list))
  ∧ ∃ logged, download_audits (download_doc cfg rq identity doc_id db).1.2
              = (download_audits db ++ logged)%list.
Proof.
  destruct (download_gate cfg identity doc_id db) as [r|u d acc] eqn:Hg.
  - rewrite (download_doc_halt _ _ _ _ _ _ Hg). simpl.
    split; [by left|]. exists []. by rewrite app_nil_r.
  - rewrite (download_doc_pass _ rq _ _ _ _ _ _ Hg). simpl.
    unfold log_download. split.
    + case_bool_decide as Hin; [left|right; split; [by apply has_row_false|]];
        by destruct (audit_commit_ok rq).
    + destruct (audit_commit_ok rq); simpl.
      * eexists [_]. by case_bool_decide.
      * exists []. rewrite app_nil_r. by case_bool_decide.
Qed.

Section RunInvariants.
Context (cfg : Config) (py_int : string → option Z).

(** Only a download writes to the ledger or to the audit table. *)
Lemma step_rows db op :
  (document_accesses (step cfg py_int db op) = document_accesses db
   ∨ ∃ uid doc_id,
       has_row db uid doc_id = false
       ∧ document_accesses (step cfg py_int db op)
         = (document_accesses db ++ [mkAccess uid doc_id])%list)
  ∧ ∃ logged, download_audits (step cfg py_int db op)
              = (download_audits db ++ logged)%list.
Proof.
  assert (Hsame : ∀ db', document_accesses db' = document_accesses db →
                         download_audits db' = download_audits db →
            (document_accesses db' = document_accesses db
             ∨ ∃ uid doc_id, has_row db uid doc_id = false
                 ∧ document_accesses db'
                   = (document_accesses db ++ [mkAccess uid doc_id])%list)
            ∧ ∃ logged, download_audits db' = (download_audits db ++ logged)%list).
  { intros db' Ha Hl. split; [by left|]. exists []. by rewrite app_nil_r. }
  destruct op as [rq identity doc_id|session identity|verified|identity doc_id|identity doc_id];
    simpl.
  - destruct (download_doc_rows cfg rq identity doc_id db) as [[Hl|Hl] Ha].
    + split; [by left|done].
    + split; [right; eauto|done].
  - apply Hsame; unfold start_checkout; repeat case_match; done.
  - unfold billing_webhook.
    destruct (negb (stripe cfg) || negb (truthy (STRIPE_WEBHOOK_SECRET cfg)));
      [by apply Hsame|].
    destruct verified as [ev|]; [|by apply Hsame].
    destruct (process_event py_int ev db) as [db'|] eqn:Hp; [|by apply Hsame].
    simpl. revert Hp. unfold process_event, reconcile.
    intros Hp. apply Hsame;
      repeat (case_match; try done); by injection Hp as <-.
  - apply Hsame; unfold approve_doc, moderate; repeat case_match; done.
  - apply Hsame; unfold reject_doc, moderate; repeat case_match; done.
Qed.

(** X5. The uniqueness constraint of the ledger is never violated:
    starting without duplicate (user, document) rows, any sequence of
    downloads, checkouts, webhook deliveries, approvals and rejections
    served one after another ends without duplicate rows. *)
Theorem ledger_stays_unique ops db :
  ledger_unique db → ledger_unique (run cfg py_int ops db).
Proof.
  revert db. induction ops as [|op ops IH]; intros db Hu; [done|].
  apply (IH (step cfg py_int db op)).
  destruct (step_rows db op) as [[Hl|(uid & doc_id & Hrow & Hl)] _];
    unfold ledger_unique in *; rewrite Hl; [done|].
  apply NoDup_app. split; [done|]. split; [|apply NoDup_singleton].
  intros row Hin Hnew. apply list_elem_of_singleton in Hnew as ->.
  apply has_row_elem in Hin. congruence.
Qed.

(** X6. The ledger and the audit table are append-only along such a run:
    every row present before is still there, in the same place, and new
    rows only come after it. *)
Theorem tables_are_append_only ops db :
  document_accesses db `prefix_of` document_accesses (run cfg py_int ops db)
  ∧ download_audits db `prefix_of` download_audits (run cfg py_int ops db).
Proof.
  revert db. induction ops as [|op ops IH]; intros db; [done|].
  destruct (IH (step cfg py_int db op)) as [IHl IHa].
  destruct (step_rows db op) as [Hl [logged Ha]].
  split.
  - etrans; [|exact IHl].
    destruct Hl as [->|(uid & doc_id & _ & ->)]; [done|]. by apply prefix_app_r.
  - etrans; [|exact IHa]. rewrite Ha. by apply prefix_app_r.
Qed.

End RunInvariants.

(** ** Billing: what it may touch *)

Section BillingFrame.
Context (cfg : Config) (py_int : string → option Z).

Lemma set_subscription_frame st uid user db :
  users db !! uid = Some user →
  ∀ other, email <$> users (set_subscription st uid user db) !! other
             = email <$> users db !! other
         ∧ role <$> users (set_subscription st uid user db) !! other
             = role <$> users db !! other.
Proof.
  intros Hu other. unfold set_subscription; simpl.
  destruct (decide (other = uid)) as [->|Hne].
  - by rewrite lookup_insert_eq, Hu.
  - by rewrite lookup_insert_ne.
Qed.

(** X7. A webhook delivery can change one thing only, the
    [subscription_status] of user rows: documents, ledger and audit rows
    stay as they are, no user row appears or changes its email or role,
    and a delivery that is not acknowledged changes nothing at all. *)
Theorem webhook_touches_subscription_only verified db :
  let out := billing_webhook cfg py_int verified db in
  documents out.2 = documents db
  ∧ document_accesses out.2 = document_accesses db
  ∧ download_audits out.2 = download_audits db
  ∧ (∀ uid, email <$> users out.2 !! uid = email <$> users db !! uid
            ∧ role <$> users out.2 !! uid = role <$> users db !! uid)
  ∧ (out.1 ≠ Received200 → out.2 = db).
Proof.
  simpl. unfold billing_webhook.
  destruct (negb (stripe cfg) || negb (truthy (STRIPE_WEBHOOK_SECRET cfg))); [done|].
  destruct verified as [ev|]; [|done].
  destruct (process_event py_int ev db) as [db'|] eqn:Hp; [|done].
  simpl.
  assert (Hrec : ∀ st user_id, reconcile py_int st user_id db = Some db' →
            documents db' = documents db
            ∧ document_accesses db' = document_accesses db
            ∧ download_audits db' = download_audits db
            ∧ (∀ uid, email <$> users db' !! uid = email <$> users db !! uid
                      ∧ role <$> users db' !! uid = role <$> users db !! uid)).
  { intros st user_id. unfold reconcile.
    destruct user_id as [ref|]; [|by intros [= <-]].
    destruct (truthy ref); [|by intros [= <-]].
    destruct (py_int ref) as [target|]; [|done].
    destruct (users db !! target) as [user|] eqn:Ht; [|by intros [= <-]].
    intros [= <-]. do 3 (split; [done|]). by apply set_subscription_frame. }
  revert Hp. unfold process_event.
  destruct (ev_type ev =? "checkout.session.completed").
  { intros Hp. destruct (Hrec _ _ Hp) as (? & ? & ? & ?). done. }
  destruct (ev_type ev =? "customer.subscription.deleted").
  { intros Hp. destruct (Hrec _ _ Hp) as (? & ? & ? & ?). done. }
  by intros [= <-].
Qed.

(** X8. [start_checkout] upgrades a user by itself only in simulation:
    when the Stripe key and price are configured the store is never
    changed, whatever SIMULATE_PAYMENTS says; the store changes only if
    Stripe is not fully configured and SIMULATE_PAYMENTS is on, and then
    the caller, and nobody else, becomes paid. *)
Theorem checkout_upgrades_only_in_simulation session identity db :
  let out := start_checkout cfg session identity db in
  (stripe cfg && truthy (STRIPE_SECRET_KEY cfg) && truthy (STRIPE_PRICE_ID cfg) = true →
   out.2 = db ∧ out.1 ≠ Simulated "paid")
  ∧ (out.2 ≠ db →
     stripe cfg && truthy (STRIPE_SECRET_KEY cfg) && truthy (STRIPE_PRICE_ID cfg) = false
     ∧ SIMULATE_PAYMENTS cfg = true
     ∧ out.1 = Simulated "paid"
     ∧ subscription_of out.2 identity = Some "paid"
     ∧ ∀ other, other ≠ identity → users out.2 !! other = users db !! other).
Proof.
  simpl. unfold start_checkout.
  destruct (stripe cfg && truthy (STRIPE_SECRET_KEY cfg) && truthy (STRIPE_PRICE_ID cfg)).
  - split; [intros _|intros Hne]; repeat case_match; simpl in *; done.
  - split; [done|].
    destruct (SIMULATE_PAYMENTS cfg); [|done].
    destruct (users db !! identity) as [user|] eqn:Hu; [|done].
    simpl. intros _. do 3 (split; [done|]). split.
    + unfold subscription_of. by rewrite set_subscription_lookup.
    + intros other Hne. by apply set_subscription_other.
Qed.

End BillingFrame.

(** ** Moderation *)

(** X9. [approve_doc] and [reject_doc] act for admins only and on one
    column only: users, ledger, audit rows and every other document stay
    as they are; without an admin token or without the document the store
    is unchanged; on success the status of the document is the one asked
    for and its other columns are kept. *)
Theorem moderation_is_admin_only st identity doc_id db :
  let out := moderate st identity doc_id db in
  users out.2 = users db
  ∧ document_accesses out.2 = document_accesses db
  ∧ download_audits out.2 = download_audits db
  ∧ (∀ other, other ≠ doc_id → documents out.2 !! other = documents db !! other)
  ∧ match out.1 with
    | DocumentJson shown =>
      (∃ user, users db !! identity = Some user ∧ role user = "admin")
      ∧ documents out.2 !! doc_id = Some shown
      ∧ status shown = st
      ∧ ∃ doc, documents db !! doc_id = Some doc
               ∧ file_name shown = file_name doc ∧ storage shown = storage doc
               ∧ s3_key shown = s3_key doc ∧ content_type shown = content_type doc
    | _ => out.2 = db
    end.
Proof.
  simpl. unfold moderate.
  destruct (users db !! identity) as [user|] eqn:Hu; [|done].
  destruct (role user =? "admin") eqn:Hr; [|done]. simpl.
  destruct (documents db !! doc_id) as [doc|] eqn:Hd; [|done]. simpl.
  do 3 (split; [done|]). split.
  - intros other Hne. by apply lookup_insert_ne.
  - split; [exists user; split; [done|by apply String.eqb_eq]|].
    split; [apply lookup_insert_eq|]. split; [done|]. by exists doc.
Qed.

(** X10. Moderation is last-write-wins: whatever an earlier approve or
    reject of the same document did, and whoever asked for it, the store
    after an admin's later decision is the store that decision alone
    would have produced. *)
Theorem later_moderation_wins st1 st2 id1 id2 doc_id db admin :
  users db !! id2 = Some admin →
  role admin = "admin" →
  (moderate st2 id2 doc_id (moderate st1 id1 doc_id db).2).2
  = (moderate st2 id2 doc_id db).2.
Proof.
  intros Ha Hr. unfold moderate at 2.
  destruct (users db !! id1) as [user|]; [|done].
  destruct (negb (role user =? "admin")); [done|].
  destruct (documents db !! doc_id) as [d0|] eqn:Hd0; [|done].
  unfold moderate. simpl. rewrite Ha, Hr, Hd0. simpl.
  rewrite lookup_insert_eq. simpl. unfold set_status. simpl.
  by rewrite insert_insert_eq.
Qed.

(** X11. Rejecting withdraws a document even from users who already
    opened it: after an admin rejects it, every non-admin request for it
    is answered 403, while the ledger row stays and keeps counting against
    the quota of the user. *)
Theorem rejected_document_is_withdrawn cfg rq admin_id admin uid user doc_id doc db :
  users db !! admin_id = Some admin →
  role admin = "admin" →
  documents db !! doc_id = Some doc →
  users db !! uid = Some user →
  role user ≠ "admin" →
  let db1 := (reject_doc admin_id doc_id db).2 in
  download_doc cfg rq uid doc_id db1 = (NotAvailable403, db1, [])
  ∧ accessed_ids db1 uid = accessed_ids db uid
  ∧ ledger_count db1 uid = ledger_count db uid.
Proof.
  intros Ha Hr Hd Hu Hne. simpl.
  unfold reject_doc, moderate. rewrite Ha, Hr, Hd. simpl.
  split; [|done].
  apply download_doc_halt. unfold download_gate. simpl.
  rewrite lookup_insert_eq, Hu. simpl.
  by rewrite (proj2 (String.eqb_neq _ _) Hne).
Qed.

(** ** [User.serialize] against the ledger *)

(** Under the uniqueness constraint the rows of one user name pairwise
    different documents. *)
Lemma accesses_distinct db uid :
  ledger_unique db → NoDup (access_document_id <$> accesses db uid).
Proof.
  intros Hu. unfold accesses. apply NoDup_fmap_2_strong.
  - intros [u1 d1] [u2 d2] H1 H2. simpl.
    apply list_elem_of_filter in H1 as [H1 _], H2 as [H2 _]. simpl in *. congruence.
  - by apply NoDup_filter.
Qed.

Lemma accesses_count db uid :
  ledger_unique db → Z.of_nat (length (accesses db uid)) = ledger_count db uid.
Proof.
  intros Hu. unfold ledger_count, accessed_ids.
  rewrite size_list_to_set by by apply accesses_distinct.
  by rewrite length_fmap.
Qed.

(** X12. Under the uniqueness constraint of the ledger the profile is
    an exact view of it: [free_docs_remaining] is FREE_DOC_LIMIT minus the
    number of distinct documents, floored at zero, and [accessed_doc_ids]
    lists each ledger document of the user once and nothing else. *)
Theorem profile_reflects_ledger cfg db uid user :
  ledger_unique db →
  let profile := User_serialize cfg db uid user in
  uj_free_docs_remaining profile = Z.max (FREE_DOC_LIMIT cfg - ledger_count db uid) 0
  ∧ (0 ≤ uj_free_docs_remaining profile)%Z
  ∧ NoDup (uj_accessed_doc_ids profile)
  ∧ ∀ doc_id, doc_id ∈ uj_accessed_doc_ids profile ↔ has_row db uid doc_id = true.
Proof.
  intros Hu. simpl. rewrite (accesses_count db uid Hu).
  split; [done|]. split; [lia|]. split; [by apply accesses_distinct|].
  intros doc_id. rewrite has_row_accessed. unfold accessed_ids.
  by rewrite elem_of_list_to_set.
Qed.

(** X13. The profile and the gate agree: for a user who is neither admin
    nor paid, with a duplicate-free ledger, a first request for an
    approved document is granted exactly when the profile shows at least
    one free document remaining. *)
Theorem remaining_predicts_download cfg rq db uid user doc_id doc :
  ledger_unique db →
  users db !! uid = Some user →
  is_admin user = false →
  is_paid user = false →
  documents db !! doc_id = Some doc →
  status doc = "approved" →
  doc_id ∉ accessed_ids db uid →
  (0 < uj_free_docs_remaining (User_serialize cfg db uid user))%Z
  ↔ decision_of (download_doc cfg rq uid doc_id db).1.1 = Some Allow.
Proof.
  unfold is_admin, is_paid. intros Hq Hu Hadm Hpaid Hd Hs Hnin. simpl.
  rewrite (accesses_count db uid Hq). unfold ledger_count.
  destruct (Z.leb_spec (FREE_DOC_LIMIT cfg) (Z.of_nat (size (accessed_ids db uid))))
    as [Hle|Hlt].
  - assert (Hg : download_gate cfg uid doc_id db = Halt UpgradeRequired402).
    { unfold download_gate. rewrite Hu, Hd, Hs, Hadm, Hpaid. simpl.
      rewrite (bool_decide_eq_false_2 _ Hnin). simpl.
      by rewrite (proj2 (Z.leb_le _ _) Hle). }
    rewrite (download_doc_halt _ _ _ _ _ _ Hg). simpl. split; [lia|done].
  - assert (Hg : download_gate cfg uid doc_id db = Pass user doc (accessed_ids db uid)).
    { unfold download_gate. rewrite Hu, Hd, Hs, Hadm, Hpaid. simpl.
      rewrite (bool_decide_eq_false_2 _ Hnin). simpl.
      by rewrite (proj2 (Z.leb_gt _ _) Hlt). }
    rewrite (download_doc_pass _ rq _ _ _ _ _ _ Hg). simpl.
    rewrite serve_allows. split; [done|lia].
Qed.

(** ** [allowed_file] *)

Lemma after_last_dot_join stem ext :
  after_last_dot ext = None →
  after_last_dot (stem ++ String "."%char ext) = Some ext.
Proof.
  intros Hext. induction stem as [|a stem IH]; simpl.
  - by rewrite Hext.
  - by rewrite IH.
Qed.

Lemma after_last_dot_split s ext :
  after_last_dot s = Some ext →
  ∃ stem, s = stem ++ String "."%char ext ∧ after_last_dot ext = None.
Proof.
  revert ext. induction s as [|a s IH]; intros ext; simpl; [done|].
  destruct (after_last_dot s) as [e|] eqn:Hs.
  - intros [= <-]. destruct (IH e eq_refl) as (stem & -> & Hnone).
    by exists (String a stem).
  - destruct (Ascii.eqb a ".") eqn:Ha; [|done].
    intros [= <-]. apply Ascii.eqb_eq in Ha as ->. by exists EmptyString.
Qed.

Lemma ascii_lower_keeps_dot a :
  Ascii.eqb a "." = true → ascii_lower a = "."%char.
Proof. intros Ha. by apply Ascii.eqb_eq in Ha as ->. Qed.

Lemma lower_pdf_has_no_dot ext :
  lower ext = "pdf" → after_last_dot ext = None.
Proof.
  destruct ext as [|a [|b [|c [|? ?]]]]; try done.
  simpl. intros [= Ha Hb Hc].
  destruct (Ascii.eqb c ".") eqn:Ec;
    [apply ascii_lower_keeps_dot in Ec; congruence|].
  destruct (Ascii.eqb b ".") eqn:Eb;
    [apply ascii_lower_keeps_dot in Eb; congruence|].
  destruct (Ascii.eqb a ".") eqn:Ea;
    [apply ascii_lower_keeps_dot in Ea; congruence|].
  done.
Qed.

(** X14. [allowed_file] accepts exactly the names that end in a dot
    followed by "pdf" in any mix of upper and lower case: a name without
    a dot, a name ending in a dot, and a name whose last extension is not
    pdf are all refused, whatever comes before the last dot. *)
Theorem allowed_file_iff_pdf_extension name :
  allowed_file name = true
  ↔ ∃ stem ext, name = stem ++ String "."%char ext ∧ lower ext = "pdf".
Proof.
  unfold allowed_file. split.
  - destruct (after_last_dot name) as [ext|] eqn:Hsplit; [|done].
    intros Hpdf. apply String.eqb_eq in Hpdf.
    destruct (after_last_dot_split _ _ Hsplit) as (stem & -> & _). eauto.
  - intros (stem & ext & -> & Hpdf).
    rewrite (after_last_dot_join stem ext (lower_pdf_has_no_dot ext Hpdf)).
    by apply String.eqb_eq.
Qed.

(** ** [send_email] *)

(** X15. [send_email] attempts nothing for an empty address, tries each
    transport at most once and SendGrid first, falls back to SMTP only
    when SendGrid did not deliver, and returns True exactly when one of
    the two delivered. *)
Theorem send_email_falls_back_once mc w to_address :
  let out := send_email mc w to_address in
  let sendgrid_delivers :=
    truthy (SENDGRID_API_KEY mc)
    && match sendgrid_status w with
       | Some code => (200 <=? code)%Z && (code <? 300)%Z
       | None => false
       end in
  let smtp_configured :=
    truthy (SMTP_HOST mc) && truthy (SMTP_USER mc) && truthy (SMTP_PASS mc) in
  (to_address = "" → out = (false, []))
  ∧ (out.2 = [] ∨ out.2 = [SendGrid] ∨ out.2 = [Smtp] ∨ out.2 = [SendGrid; Smtp])
  ∧ (Smtp ∈ out.2 → sendgrid_delivers = false)
  ∧ (SendGrid ∈ out.2 ↔ to_address ≠ "" ∧ truthy (SENDGRID_API_KEY mc) = true)
  ∧ out.1 = truthy to_address && (sendgrid_delivers || (smtp_configured && smtp_sends w)).
Proof.
  simpl. unfold send_email.
  assert (Hempty : truthy to_address = false ↔ to_address = "").
  { unfold truthy. rewrite negb_false_iff. apply String.eqb_eq. }
  destruct (truthy to_address) eqn:Ht; simpl.
  2:{ split; [done|]. split; [by left|]. split; [by intros ?%elem_of_nil|].
      split; [|done]. split; [by intros ?%elem_of_nil|].
      intros [Hne _]. by destruct Hne, Hempty as [-> _]. }
  assert (Hne : to_address ≠ "").
  { intros Heq. apply Hempty in Heq. done. }
  split; [done|].
  destruct (truthy (SENDGRID_API_KEY mc)) eqn:Hk; simpl.
  - destruct (sendgrid_status w) as [code|]; simpl.
    + destruct ((200 <=? code)%Z && (code <? 300)%Z) eqn:Hc; simpl.
      * split; [auto|]. split; [by intros ?%list_elem_of_singleton|].
        split; [|done]. split; [done|intros _; apply list_elem_of_here].
      * destruct (truthy (SMTP_HOST mc) && truthy (SMTP_USER mc) && truthy (SMTP_PASS mc));
          simpl; (split; [auto|]); (split; [done|]);
          (split; [|done]); (split; [done|intros _; apply list_elem_of_here]).
    + destruct (truthy (SMTP_HOST mc) && truthy (SMTP_USER mc) && truthy (SMTP_PASS mc));
        simpl; (split; [auto|]); (split; [done|]);
        (split; [|done]); (split; [done|intros _; apply list_elem_of_here]).
  - destruct (truthy (SMTP_HOST mc) && truthy (SMTP_USER mc) && truthy (SMTP_PASS mc));
      simpl; (split; [auto|]); (split; [done|]); (split; [|done]);
      (split; [|by intros [_ ?]]).
    + by intros ?%list_elem_of_singleton.
    + by intros ?%elem_of_nil.
Qed.

(** ** [register] *)

Lemma email_taken_false db e :
  email_taken db e = false → ∀ j v, users db !! j = Some v → email v ≠ e.
Proof.
  intros Hfree j v Hj Heq. unfold email_taken in Hfree.
  assert (existsb (λ row : Z * User, email row.2 =? e) (map_to_list (users db)) = true)
    as Htaken; [|congruence].
  apply existsb_exists. exists (j, v). split.
  - apply list_elem_of_In. by apply elem_of_map_to_list.
  - simpl. by apply String.eqb_eq.
Qed.

Lemma email_taken_true db e j v :
  users db !! j = Some v → email v = e → email_taken db e = true.
Proof.
  intros Hj Heq. destruct (email_taken db e) eqn:Ht; [done|].
  by destruct (email_taken_false db e Ht j v Hj).
Qed.

(** What a successful registration is. *)
Lemma register_created cfg admin_env email_field password_field assigned_id db profile db' :
  register cfg admin_env email_field password_field assigned_id db
  = (Registered201 profile, db') →
  ∃ addr,
    email_field = Some addr ∧ addr ≠ ""
    ∧ truthy_opt password_field = true
    ∧ email_taken db addr = false
    ∧ users db !! assigned_id = None
    ∧ db' = mkDB (<[assigned_id :=
                     mkUser addr (if truthy_opt admin_env && bool_decide (Some addr = admin_env)
                                  then "admin" else "user") "free"]> (users db))
                 (documents db) (document_accesses db) (download_audits db)
    ∧ profile = User_serialize cfg db' assigned_id
                  (mkUser addr (if truthy_opt admin_env && bool_decide (Some addr = admin_env)
                                then "admin" else "user") "free").
Proof.
  unfold register.
  destruct email_field as [addr|]; [|done]. simpl.
  destruct (truthy addr) eqn:Ht; [|done]. simpl.
  destruct (truthy_opt password_field) eqn:Hp; [|done]. simpl.
  destruct (email_taken db addr) eqn:He; [done|].
  destruct (users db !! assigned_id) eqn:Hid; [done|].
  intros [= <- <-]. exists addr. repeat split; try done.
  intros ->. done.
Qed.

(** X16. [register] writes one user row or nothing.  Any answer but 201
    leaves the store as it was.  A 201 adds exactly the row of the new
    id, with the email given, subscription free, and role admin only when
    the ADMIN_EMAIL variable of the environment is set to that very email
    (otherwise user); documents, ledger, audit rows and the other users
    are untouched. *)
Theorem register_adds_one_free_user
    cfg admin_env email_field password_field assigned_id db :
  let out := register cfg admin_env email_field password_field assigned_id db in
  documents out.2 = documents db
  ∧ document_accesses out.2 = document_accesses db
  ∧ download_audits out.2 = download_audits db
  ∧ match out.1 with
    | Registered201 profile =>
      ∃ addr new,
        email_field = Some addr ∧ addr ≠ ""
        ∧ users db !! assigned_id = None
        ∧ users out.2 = <[assigned_id := new]> (users db)
        ∧ email new = addr
        ∧ subscription_status new = "free"
        ∧ (role new = "admin" ∨ role new = "user")
        ∧ (role new = "admin" ↔ admin_env = Some addr)
        ∧ uj_id profile = assigned_id ∧ uj_email profile = addr
        ∧ uj_role profile = role new ∧ uj_subscription_status profile = "free"
    | _ => out.2 = db
    end.
Proof.
  simpl.
  destruct (register cfg admin_env email_field password_field assigned_id db)
    as [r db'] eqn:Hreg.
  destruct r as [| | |profile].
  1-3: revert Hreg; unfold register; repeat case_match; by intros [= <-].
  destruct (register_created _ _ _ _ _ _ _ _ Hreg)
    as (addr & -> & Hne & _ & _ & Hid & -> & ->). simpl.
  do 3 (split; [done|]).
  eexists addr, _. do 3 (split; [done|]). split; [done|]. simpl.
  do 2 (split; [done|]).
  destruct (truthy_opt admin_env && bool_decide (Some addr = admin_env)) eqn:Hadm.
  - split; [by left|]. split; [|done]. split; [|done]. intros _.
    apply andb_true_iff in Hadm as [_ Heq]. by apply bool_decide_eq_true in Heq.
  - split; [by right|]. split; [|done]. split; [done|]. intros ->.
    apply andb_false_iff in Hadm as [Hf|Hf].
    + simpl in Hf. unfold truthy in Hf. apply negb_false_iff, String.eqb_eq in Hf. done.
    + by apply bool_decide_eq_false in Hf.
Qed.

(** X17. [register] keeps emails unique: if no two user rows share an
    email before the call, none do after it, whatever the request and the
    answer. *)
Theorem register_keeps_emails_unique
    cfg admin_env email_field password_field assigned_id db :
  emails_unique db →
  emails_unique (register cfg admin_env email_field password_field assigned_id db).2.
Proof.
  intros Huniq.
  destruct (register cfg admin_env email_field password_field assigned_id db)
    as [r db'] eqn:Hreg.
  destruct r as [| | |profile].
  1-3: revert Hreg; unfold register; repeat case_match; by intros [= <-].
  destruct (register_created _ _ _ _ _ _ _ _ Hreg)
    as (addr & -> & Hne & _ & Hfree & Hid & -> & _). simpl.
  intros i j u v. simpl.
  destruct (decide (i = assigned_id)) as [->|Hi], (decide (j = assigned_id)) as [->|Hj];
    [done| | |].
  - rewrite lookup_insert_eq, lookup_insert_ne by done.
    intros [= <-] Hv Heq. simpl in Heq.
    by destruct (email_taken_false db addr Hfree j v Hv).
  - rewrite lookup_insert_eq, lookup_insert_ne by done.
    intros Hu [= <-] Heq. simpl in Heq.
    by destruct (email_taken_false db addr Hfree i u Hu).
  - rewrite !lookup_insert_ne by done. apply Huniq.
Qed.

(** X18. An email can be registered once: after a 201 for an address,
    every later registration of the same address is answered 409 and
    changes nothing, whatever password, environment and id come with it. *)
Theorem registered_email_is_refused_afterwards
    cfg admin_env email_field password_field assigned_id db profile db'
    cfg' admin_env2 password2 assigned_id2 :
  register cfg admin_env email_field password_field assigned_id db
  = (Registered201 profile, db') →
  truthy_opt password2 = true →
  register cfg' admin_env2 email_field password2 assigned_id2 db'
  = (RegisterConflict409, db').
Proof.
  intros Hreg Hp2.
  destruct (register_created _ _ _ _ _ _ _ _ Hreg)
    as (addr & -> & Hne & _ & _ & Hid & -> & _).
  unfold register. simpl.
  assert (truthy addr = true) as ->.
  { unfold truthy. apply negb_true_iff. by apply String.eqb_neq. }
  rewrite Hp2. simpl.
  rewrite (email_taken_true _ addr assigned_id
             (mkUser addr (if truthy_opt admin_env && bool_decide (Some addr = admin_env)
                           then "admin" else "user") "free")); [done| |done].
  simpl. apply lookup_insert_eq.
Qed.

(** ** [upload_doc] *)

(** What a successful upload is. *)
Lemma upload_created cfg mc form identity db doc_id doc db' mails :
  upload_doc cfg mc form identity db = (Created201 doc_id doc, db', mails) →
  doc_id = assigned_doc_id form
  ∧ documents db !! doc_id = None
  ∧ db' = mkDB (users db) (<[doc_id := doc]> (documents db))
               (document_accesses db) (download_audits db)
  ∧ status doc = "pending"
  ∧ file_name doc = stored_name form
  ∧ (∃ file, form_file form = Some file ∧ allowed_file (filename file) = true)
  ∧ truthy_opt (form_title form) = true
  ∧ truthy_opt (form_course_code form) = true
  ∧ (∃ user, users db !! identity = Some user
             ∧ (fst <$> mails) = [ADMIN_EMAIL mc; email user]).
Proof.
  unfold upload_doc.
  destruct (form_file form) as [file|]; [|done].
  destruct (truthy (filename file)); [|done]. simpl.
  destruct (allowed_file (filename file)) eqn:Hpdf; [|done]. simpl.
  destruct (truthy_opt (form_title form)); [|done].
  destruct (truthy_opt (form_course_code form)); [|done]. simpl.
  destruct (negb _); [done|].
  destruct (_use_s3 cfg), (store_outcome form); try done;
    destruct (users db !! identity) as [user|]; try done;
    destruct (documents db !! assigned_doc_id form) eqn:Hid; try done;
    intros [= <- <- <- <-]; repeat split; eauto.
Qed.

(** X19. [upload_doc] writes one document row or nothing.  Any answer
    but 201 leaves the store as it was and sends no mail.  A 201 adds
    exactly one row, under the new id, with status pending and the stored
    file name; the upload had a file whose name [allowed_file] accepts, a
    title and a course code; the admin and then the uploader are
    notified; users, ledger, audit rows and the other documents are
    untouched. *)
Theorem upload_adds_one_pending_document cfg mc form identity db :
  let out := upload_doc cfg mc form identity db in
  users out.1.2 = users db
  ∧ document_accesses out.1.2 = document_accesses db
  ∧ download_audits out.1.2 = download_audits db
  ∧ match out.1.1 with
    | Created201 doc_id doc =>
      doc_id = assigned_doc_id form
      ∧ documents db !! doc_id = None
      ∧ documents out.1.2 = <[doc_id := doc]> (documents db)
      ∧ status doc = "pending"
      ∧ file_name doc = stored_name form
      ∧ (∃ file, form_file form = Some file ∧ allowed_file (filename file) = true)
      ∧ truthy_opt (form_title form) = true
      ∧ truthy_opt (form_course_code form) = true
      ∧ ∃ user, users db !! identity = Some user
                ∧ (fst <$> out.2) = [ADMIN_EMAIL mc; email user]
    | _ => out.1.2 = db ∧ out.2 = []
    end.
Proof.
  simpl.
  destruct (upload_doc cfg mc form identity db) as [[r db'] mails] eqn:Hup.
  destruct r as [| | | | | |doc_id doc].
  1-6: revert Hup; unfold upload_doc; repeat case_match; by intros [= <- <-].
  destruct (upload_created _ _ _ _ _ _ _ _ _ Hup)
    as (-> & Hid & -> & Hs & Hn & Hf & Ht & Hc & Hm).
  simpl. repeat split; done.
Qed.

(** X20. A freshly uploaded document is invisible to downloads until an
    admin approves it: every non-admin request for it is answered 403 and
    writes nothing; once an admin has approved it, no request of an
    existing user is answered 403 any more. *)
Theorem uploaded_document_awaits_approval
    cfg mc form identity db doc_id doc db' mails :
  upload_doc cfg mc form identity db = (Created201 doc_id doc, db', mails) →
  (∀ rq uid user,
     users db' !! uid = Some user → role user ≠ "admin" →
     download_doc cfg rq uid doc_id db' = (NotAvailable403, db', []))
  ∧ (∀ rq admin_id admin uid user,
       users db' !! admin_id = Some admin → role admin = "admin" →
       users db' !! uid = Some user →
       decision_of (download_doc cfg rq uid doc_id (approve_doc admin_id doc_id db').2).1.1
       ≠ Some (Deny NotAvailable)
       ∧ decision_of (download_doc cfg rq uid doc_id (approve_doc admin_id doc_id db').2).1.1
         ≠ None).
Proof.
  intros Hup.
  destruct (upload_created _ _ _ _ _ _ _ _ _ Hup) as (_ & _ & -> & Hs & _).
  split.
  - intros rq uid user Hu Hne. apply download_doc_halt. unfold download_gate. simpl in *.
    rewrite lookup_insert_eq, Hu, Hs. simpl.
    by rewrite (proj2 (String.eqb_neq _ _) Hne).
  - intros rq admin_id admin uid user Ha Hr Hu. simpl in *.
    unfold approve_doc, moderate. simpl. rewrite Ha, Hr. simpl.
    rewrite lookup_insert_eq. simpl.
    set (db2 := set_status "approved" doc_id doc _).
    destruct (download_gate cfg uid doc_id db2) as [r|u d acc] eqn:Hg.
    + rewrite (download_doc_halt _ _ _ _ _ _ Hg). simpl.
      revert Hg. unfold download_gate. subst db2. simpl.
      rewrite lookup_insert_eq, Hu. simpl.
      case_match; [|done]. by intros [= <-].
    + rewrite (download_doc_pass _ rq _ _ _ _ _ _ Hg). simpl.
      by rewrite serve_allows.
Qed.

(** ** [list_docs] *)

Lemma omap_length_le {A B} (f : A → option B) (l : list A) :
  (length (omap f l) ≤ length l)%nat.
Proof.
  induction l as [|x l IH]; [done|].
  change (omap f (x :: l)) with (match f x with
                                 | Some y => y :: omap f l
                                 | None => omap f l
                                 end).
  destruct (f x); simpl; lia.
Qed.

Lemma list_docs_rows (newest_first : list Z) db (row : Z * Document) :
  row ∈ omap (λ id, pair id <$> documents db !! id) newest_first
  ↔ row.1 ∈ newest_first ∧ documents db !! row.1 = Some row.2.
Proof.
  rewrite list_elem_of_omap. destruct row as [id doc]. simpl. split.
  - intros (x & Hx & Hrow). destruct (documents db !! x) as [d|] eqn:Hd; [|done].
    simpl in Hrow. by injection Hrow as -> ->.
  - intros [Hin Hd]. exists id. by rewrite Hd.
Qed.

(** X21. What the listing shows to anyone who is not an admin (no token,
    a token without user row, or an ordinary user): at most 200 entries,
    each an approved document of the table with its status field left
    out; the [status] parameter is ignored; and when the table has at
    most 200 documents, every approved one is listed. *)
Theorem public_listing_shows_approved_only (newest_first : list Z) identity status_arg db :
  (∀ uid user, identity = Some uid → users db !! uid = Some user → role user ≠ "admin") →
  let listing := list_docs newest_first identity status_arg db in
  (length listing ≤ 200)%nat
  ∧ listing = list_docs newest_first identity None db
  ∧ (∀ entry, entry ∈ listing →
       dj_file_status entry = None
       ∧ dj_id entry ∈ newest_first
       ∧ ∃ doc, documents db !! dj_id entry = Some doc ∧ status doc = "approved")
  ∧ ((length newest_first ≤ 200)%nat →
     ∀ id doc, id ∈ newest_first → documents db !! id = Some doc →
               status doc = "approved" → id ∈ dj_id <$> listing).
Proof.
  intros Hpublic. simpl. unfold list_docs.
  assert (Hadm : match identity ≫= (λ uid, users db !! uid) with
                 | Some u => role u =? "admin"
                 | None => false
                 end = false).
  { destruct identity as [uid|]; [|done]. simpl.
    destruct (users db !! uid) as [user|] eqn:Hu; [|done].
    apply String.eqb_neq. by apply (Hpublic uid user). }
  rewrite Hadm.
  set (rows := omap (λ id, pair id <$> documents db !! id) newest_first).
  split; [rewrite length_fmap, length_take; lia|].
  split; [done|]. split.
  - intros entry Hin. apply list_elem_of_fmap in Hin as (row & -> & Hrow).
    apply subseteq_take, list_elem_of_filter in Hrow as [Hst Hrow].
    apply list_docs_rows in Hrow as [Horder Hd]. simpl. eauto.
  - intros Hfew id doc Hin Hd Hst.
    apply list_elem_of_fmap. exists (Document_serialize false (id, doc)).
    split; [done|]. apply list_elem_of_fmap. exists (id, doc). split; [done|].
    rewrite take_ge.
    + apply list_elem_of_filter. split; [done|]. by apply list_docs_rows.
    + etrans; [apply length_filter|]. subst rows.
      etrans; [apply omap_length_le|]. done.
Qed.

(** X22. What the listing shows to an admin: every entry is a document of
    the table with its status shown; with a non-empty [status] parameter
    only documents of that status are listed; without it, when the table
    has at most 200 documents, all of them are listed, pending and
    rejected ones included. *)
Theorem admin_listing_shows_status (newest_first : list Z) uid user status_arg db :
  users db !! uid = Some user →
  role user = "admin" →
  let listing := list_docs newest_first (Some uid) status_arg db in
  (∀ entry, entry ∈ listing →
     ∃ doc, documents db !! dj_id entry = Some doc
            ∧ dj_file_status entry = Some (status doc)
            ∧ (∀ st, status_arg = Some st → st ≠ "" → status doc = st))
  ∧ (truthy_opt status_arg = false → (length newest_first ≤ 200)%nat →
     ∀ id doc, id ∈ newest_first → documents db !! id = Some doc →
               mkDocJson id (Some (status doc)) ∈ listing).
Proof.
  intros Hu Hr. simpl. unfold list_docs. simpl. rewrite Hu, Hr. simpl.
  set (rows := omap (λ id, pair id <$> documents db !! id) newest_first).
  split.
  - intros entry Hin. apply list_elem_of_fmap in Hin as (row & -> & Hrow).
    apply subseteq_take in Hrow.
    destruct status_arg as [st|]; simpl in *.
    + destruct (truthy st) eqn:Ht.
      * apply list_elem_of_filter in Hrow as [Hst Hrow].
        apply list_docs_rows in Hrow as [_ Hd]. exists row.2.
        do 2 (split; [done|]). by intros ? [= <-] _.
      * apply list_docs_rows in Hrow as [_ Hd]. exists row.2.
        do 2 (split; [done|]). intros ? [= <-] Hne.
        unfold truthy in Ht. apply negb_false_iff, String.eqb_eq in Ht. done.
    + apply list_docs_rows in Hrow as [_ Hd]. exists row.2.
      do 2 (split; [done|]). by intros ? [=].
  - intros Hnone Hfew id doc Hin Hd. rewrite Hnone.
    apply list_elem_of_fmap. exists (id, doc). split; [done|].
    rewrite take_ge.
    + by apply list_docs_rows.
    + subst rows. etrans; [apply omap_length_le|]. done.
Qed.

(** ** [delete_doc] *)

(** What a successful deletion is. *)
Lemma delete_done related_ok commit_ok identity doc_id db gone db' :
  delete_doc related_ok commit_ok identity doc_id db = (Deleted200 gone, db') →
  gone = doc_id
  ∧ commit_ok = true
  ∧ (∃ admin, users db !! identity = Some admin ∧ role admin = "admin")
  ∧ is_Some (documents db !! doc_id)
  ∧ db' = remove_document doc_id (if related_ok then remove_related doc_id db else db).
Proof.
  unfold delete_doc.
  destruct (users db !! identity) as [admin|] eqn:Hu; [|done].
  destruct (role admin =? "admin") eqn:Hr; [|done]. simpl.
  destruct (documents db !! doc_id) as [doc|] eqn:Hd; [|done].
  destruct commit_ok; [|done].
  intros [= <- <-]. repeat split; eauto.
  exists admin. split; [done|]. by apply String.eqb_eq.
Qed.

Lemma accessed_ids_remove_related db doc_id uid :
  accessed_ids (remove_related doc_id db) uid = accessed_ids db uid ∖ {[doc_id]}.
Proof.
  apply set_eq. intros d.
  rewrite elem_of_difference, not_elem_of_singleton.
  unfold accessed_ids, accesses, remove_related. simpl.
  rewrite !elem_of_list_to_set, !list_elem_of_fmap. split.
  - intros (a & -> & Ha). apply list_elem_of_filter in Ha as [Hu Ha].
    apply list_elem_of_filter in Ha as [Hd Ha].
    split; [|done]. exists a. split; [done|]. by apply list_elem_of_filter.
  - intros [(a & -> & Ha) Hne]. apply list_elem_of_filter in Ha as [Hu Ha].
    exists a. split; [done|]. apply list_elem_of_filter. split; [done|].
    by apply list_elem_of_filter.
Qed.

(** X23. [delete_doc] deletes for admins only and all or nothing: any
    answer but 200 leaves the store as it was; a 200 was asked for by an
    admin, removes the document row and, when the bulk deletes went
    through, every ledger and audit row of that document and no other
    row; user rows are never touched and the uniqueness of the ledger is
    kept. *)
Theorem delete_is_admin_only_and_atomic related_ok commit_ok identity doc_id db :
  let out := delete_doc related_ok commit_ok identity doc_id db in
  users out.2 = users db
  ∧ (ledger_unique db → ledger_unique out.2)
  ∧ match out.1 with
    | Deleted200 gone =>
      gone = doc_id
      ∧ (∃ admin, users db !! identity = Some admin ∧ role admin = "admin")
      ∧ documents out.2 = delete doc_id (documents db)
      ∧ (related_ok = true →
         document_accesses out.2
           = filter (λ a, access_document_id a ≠ doc_id) (document_accesses db)
         ∧ download_audits out.2
           = filter (λ a, audit_document_id a ≠ doc_id) (download_audits db))
      ∧ (related_ok = false →
         document_accesses out.2 = document_accesses db
         ∧ download_audits out.2 = download_audits db)
    | _ => out.2 = db
    end.
Proof.
  simpl.
  destruct (delete_doc related_ok commit_ok identity doc_id db) as [r db'] eqn:Hdel.
  destruct r as [| | | |gone].
  1-4: revert Hdel; unfold delete_doc; repeat case_match; by intros [= <-].
  destruct (delete_done _ _ _ _ _ _ _ Hdel) as (-> & _ & Hadm & _ & ->).
  simpl. destruct related_ok; simpl.
  - split; [done|]. split; [intros Hu; by apply NoDup_filter|].
    repeat split; done.
  - split; [done|]. split; [done|]. repeat split; done.
Qed.

(** X24. After a deletion whose bulk deletes went through, nothing points
    to the document any more: it has no row, no user has a ledger row for
    it, no audit row names it, every request for it is answered 404, and
    the ledger rows of all other documents are exactly the ones that were
    there. *)
Theorem deleted_document_leaves_no_trace cfg commit_ok identity doc_id db gone db' :
  delete_doc true commit_ok identity doc_id db = (Deleted200 gone, db') →
  documents db' !! doc_id = None
  ∧ (∀ uid, has_row db' uid doc_id = false)
  ∧ (∀ a, a ∈ download_audits db' → audit_document_id a ≠ doc_id)
  ∧ (∀ rq uid, download_doc cfg rq uid doc_id db' = (NotFound404, db', []))
  ∧ (∀ uid other, other ≠ doc_id → has_row db' uid other = has_row db uid other).
Proof.
  intros Hdel.
  destruct (delete_done _ _ _ _ _ _ _ Hdel) as (-> & _ & _ & _ & ->).
  assert (Hgone : ∀ uid, doc_id ∉ accessed_ids (remove_document doc_id (remove_related doc_id db)) uid).
  { intros uid.
    rewrite (accessed_ids_ledger (remove_related doc_id db)) by done.
    rewrite accessed_ids_remove_related.
    intros [_ Hnot]%elem_of_difference. apply Hnot. by apply elem_of_singleton. }
  split; [apply lookup_delete_eq|].
  split; [intros uid; by apply has_row_false|].
  split.
  { intros a Ha. simpl in Ha. by apply list_elem_of_filter in Ha as [? _]. }
  split.
  { intros rq uid. apply download_doc_halt. unfold download_gate. simpl.
    by rewrite lookup_delete_eq. }
  intros uid other Hne.
  apply eq_true_iff_eq. rewrite !has_row_accessed.
  rewrite (accessed_ids_ledger (remove_related doc_id db)
             (remove_document doc_id (remove_related doc_id db))) by done.
  rewrite accessed_ids_remove_related, elem_of_difference, not_elem_of_singleton.
  split; [by intros [? _]|by intros ?].
Qed.

(** X25. Deleting a document gives its slot back.  For every user,
    whatever the role or subscription, the number of distinct ledger
    documents drops by one if the user had opened the document and stays
    as it was otherwise.  So a user who is neither admin nor paid, sits at
    FREE_DOC_LIMIT and is refused a new approved document is granted that
    document after an admin deletes one the user had opened. *)
Theorem deleting_a_document_frees_its_slot
    cfg commit_ok identity doc_id db gone db' :
  delete_doc true commit_ok identity doc_id db = (Deleted200 gone, db') →
  (∀ who,
     ledger_count db' who
     = (ledger_count db who
        - if bool_decide (doc_id ∈ accessed_ids db who) then 1 else 0)%Z)
  ∧ (∀ rq uid user wanted paper,
       users db !! uid = Some user →
       is_admin user = false →
       is_paid user = false →
       doc_id ∈ accessed_ids db uid →
       ledger_count db uid = FREE_DOC_LIMIT cfg →
       wanted ≠ doc_id →
       documents db !! wanted = Some paper →
       status paper = "approved" →
       wanted ∉ accessed_ids db uid →
       download_doc cfg rq uid wanted db = (UpgradeRequired402, db, [])
       ∧ decision_of (download_doc cfg rq uid wanted db').1.1 = Some Allow).
Proof.
  intros Hdel.
  destruct (delete_done _ _ _ _ _ _ _ Hdel) as (-> & _ & _ & _ & ->).
  assert (Hids : ∀ who, accessed_ids (remove_document doc_id (remove_related doc_id db)) who
                        = accessed_ids db who ∖ {[doc_id]}).
  { intros who. rewrite (accessed_ids_ledger (remove_related doc_id db)) by done.
    apply accessed_ids_remove_related. }
  assert (Hcount : ∀ who,
    ledger_count (remove_document doc_id (remove_related doc_id db)) who
    = (ledger_count db who
       - if bool_decide (doc_id ∈ accessed_ids db who) then 1 else 0)%Z).
  { intros who. unfold ledger_count. rewrite Hids. case_bool_decide as Hin.
    - assert (0 < size (accessed_ids db who))%nat.
      { destruct (size (accessed_ids db who)) eqn:Hsz; [|lia].
        apply size_empty_iff in Hsz. apply Hsz in Hin. by apply elem_of_empty in Hin. }
      rewrite size_difference by (by apply singleton_subseteq_l).
      rewrite size_singleton. lia.
    - rewrite difference_disjoint_L by (by apply disjoint_singleton_r). lia. }
  split; [exact Hcount|].
  unfold is_admin, is_paid.
  intros rq uid user wanted paper Hu Hadm Hpaid Hin Hfull Hne Hd Hs Hnew.
  split.
  - apply download_doc_halt. unfold download_gate, ledger_count in *.
    rewrite Hu, Hd, Hs, Hadm, Hpaid. simpl.
    rewrite (bool_decide_eq_false_2 _ Hnew). simpl.
    by rewrite (proj2 (Z.leb_le _ _)) by lia.
  - assert (Hg : download_gate cfg uid wanted (remove_document doc_id (remove_related doc_id db))
                 = Pass user paper
                     (accessed_ids (remove_document doc_id (remove_related doc_id db)) uid)).
    { unfold download_gate. simpl. rewrite lookup_delete_ne by done.
      rewrite Hu, Hd, Hs, Hadm, Hpaid. simpl.
      pose proof (Hcount uid) as Hless.
      rewrite (bool_decide_eq_true_2 _ Hin) in Hless.
      unfold ledger_count in Hless, Hfull.
      destruct (Z.leb_spec (FREE_DOC_LIMIT cfg)
                  (Z.of_nat (size (accessed_ids
                     (remove_document doc_id (remove_related doc_id db)) uid)))); [lia|].
      by rewrite andb_false_r. }
    rewrite (download_doc_pass _ rq _ _ _ _ _ _ Hg). apply serve_allows.
Qed.

(** ** Downloads as seen in the profile *)

(** X26. A granted download shows in [me].  After a first download of a
    document, [accessed_doc_ids] holds the ids it held before and the new
    id once more (in whatever order the store lists them), and
    [free_docs_remaining] is one less, never below zero.  After a
    download of a document already in the ledger, [accessed_doc_ids]
    holds the same ids and [free_docs_remaining] is what it was.  The
    other fields of the profile do not change in either case. *)
Theorem granted_download_shows_in_profile cfg rq uid doc_id db user :
  users db !! uid = Some user →
  decision_of (download_doc cfg rq uid doc_id db).1.1 = Some Allow →
  ∃ before after,
    me cfg uid db = Some (before, FREE_DOC_LIMIT cfg)
    ∧ me cfg uid (download_doc cfg rq uid doc_id db).1.2 = Some (after, FREE_DOC_LIMIT cfg)
    ∧ uj_id after = uj_id before
    ∧ uj_email after = uj_email before
    ∧ uj_role after = uj_role before
    ∧ uj_subscription_status after = uj_subscription_status before
    ∧ if has_row db uid doc_id
      then uj_accessed_doc_ids after ≡ₚ uj_accessed_doc_ids before
           ∧ uj_free_docs_remaining after = uj_free_docs_remaining before
      else uj_accessed_doc_ids after ≡ₚ doc_id :: uj_accessed_doc_ids before
           ∧ uj_free_docs_remaining after
             = Z.max (uj_free_docs_remaining before - 1) 0.
Proof.
  intros Hu Hallow.
  destruct (download_doc_core cfg rq uid doc_id db) as [Husers _].
  pose proof (allowed_download_ledger cfg rq uid doc_id db Hallow) as Hledger.
  unfold me. rewrite Husers, Hu. eexists _, _. do 2 (split; [done|]).
  do 4 (split; [done|]).
  unfold User_serialize, accesses. rewrite Hledger.
  destruct (has_row db uid doc_id); [done|]. simpl.
  rewrite filter_app, (filter_cons_True _ (mkAccess uid doc_id)) by done.
  rewrite filter_nil, fmap_app, length_app. simpl. split; [|lia].
  symmetry. apply Permutation_cons_append.
Qed.

(** ** The handlers run on the second deployment *)

Import Cases.

Lemma unapproved_is_forbidden_to_non_admin_witness :
  download_doc cfg2 plain_rq 2 4 campus_db = (NotAvailable403, campus_db, []).
Proof.
  apply (unapproved_is_forbidden_to_non_admin cfg2 plain_rq 2 4 campus_db
           (mkUser "bob@example.org" "user" "paid")
           (mkDocument "d.pdf" "local" None (Some "application/pdf") "pending"));
    (reflexivity || discriminate).
Defined.

Lemma paid_download_ignores_quota_witness :
  decision_of (download_doc zero_cfg plain_rq 2 3 campus_db).1.1 = Some Allow.
Proof.
  apply (paid_download_ignores_quota zero_cfg plain_rq 2 3 campus_db
           (mkUser "bob@example.org" "user" "paid")
           (mkDocument "c.pdf" "s3" (Some "uploads/c.pdf") None "approved"));
    reflexivity.
Defined.

Lemma no_new_documents_without_limit_witness :
  download_doc zero_cfg plain_rq 1 3 campus_db = (UpgradeRequired402, campus_db, [])
  ∧ decision_of (download_doc zero_cfg plain_rq 1 2 campus_db).1.1 = Some Allow.
Proof.
  split.
  - apply (no_new_documents_without_limit zero_cfg plain_rq 1 3 campus_db
             (mkUser "alice@example.org" "user" "free")
             (mkDocument "c.pdf" "s3" (Some "uploads/c.pdf") None "approved"));
      try reflexivity; by vm_compute.
  - apply (no_new_documents_without_limit zero_cfg plain_rq 1 2 campus_db
             (mkUser "alice@example.org" "user" "free")
             (mkDocument "b.pdf" "local" None (Some "application/pdf") "approved"));
      try reflexivity; by vm_compute.
Defined.

Lemma download_raises_only_without_user_witness :
  (download_doc cfg2 plain_rq 5 1 campus_db).1.1 = Unhandled500
  ∧ (download_doc cfg2 plain_rq 1 1 campus_db).1.1 ≠ Unhandled500.
Proof.
  split.
  - apply (download_raises_only_without_user cfg2 plain_rq 5 1 campus_db
             (mkDocument "a.pdf" "local" None (Some "application/pdf") "approved"));
      reflexivity.
  - intros Hraised.
    apply (download_raises_only_without_user cfg2 plain_rq 1 1 campus_db
             (mkDocument "a.pdf" "local" None (Some "application/pdf") "approved"))
      in Hraised; [discriminate Hraised|reflexivity].
Defined.

Lemma ledger_stays_unique_witness :
  ledger_unique (run cfg2 int_on_digits upgrade_and_cancel fresh_db).
Proof.
  apply (ledger_stays_unique cfg2 int_on_digits upgrade_and_cancel fresh_db).
  apply NoDup_nil_2.
Defined.

Lemma tables_are_append_only_witness :
  document_accesses campus_db
    `prefix_of` document_accesses (run cfg2 int_on_digits stay_free campus_db).
Proof.
  exact (proj1 (tables_are_append_only cfg2 int_on_digits stay_free campus_db)).
Defined.

Lemma webhook_touches_subscription_only_witness :
  document_accesses (billing_webhook cfg2 int_on_digits (Some (canceled "2")) campus_db).2
  = document_accesses campus_db
  ∧ subscription_of (billing_webhook cfg2 int_on_digits (Some (canceled "2")) campus_db).2 2
    = Some "free".
Proof.
  destruct (webhook_touches_subscription_only cfg2 int_on_digits
              (Some (canceled "2")) campus_db) as (_ & Hledger & _).
  split; [exact Hledger|reflexivity].
Defined.

Lemma checkout_upgrades_only_in_simulation_witness :
  (start_checkout cfg2 (Some "https://checkout.example/s1") 1 campus_db).2 = campus_db
  ∧ subscription_of (start_checkout sim_cfg None 1 campus_db).2 1 = Some "paid".
Proof.
  split.
  - apply (checkout_upgrades_only_in_simulation cfg2 (Some "https://checkout.example/s1")
             1 campus_db). reflexivity.
  - apply (checkout_upgrades_only_in_simulation sim_cfg None 1 campus_db).
    intros Heq. apply (f_equal (λ db, subscription_of db 1)) in Heq. discriminate Heq.
Defined.

Lemma moderation_is_admin_only_witness :
  (moderate "approved" 1 4 campus_db).2 = campus_db
  ∧ document_accesses (moderate "approved" 9 4 campus_db).2 = document_accesses campus_db.
Proof.
  split.
  - exact (proj2 (proj2 (proj2 (proj2
             (moderation_is_admin_only "approved" 1 4 campus_db))))).
  - exact (proj1 (proj2 (moderation_is_admin_only "approved" 9 4 campus_db))).
Defined.

Lemma later_moderation_wins_witness :
  (moderate "rejected" 9 4 (moderate "approved" 9 4 campus_db).2).2
  = (moderate "rejected" 9 4 campus_db).2.
Proof.
  apply (later_moderation_wins "approved" "rejected" 9 9 4 campus_db
           (mkUser "root@example.org" "admin" "free")); reflexivity.
Defined.

Lemma rejected_document_is_withdrawn_witness :
  download_doc cfg2 plain_rq 1 1 (reject_doc 9 1 campus_db).2
  = (NotAvailable403, (reject_doc 9 1 campus_db).2, [])
  ∧ ledger_count (reject_doc 9 1 campus_db).2 1 = 2%Z.
Proof.
  destruct (rejected_document_is_withdrawn cfg2 plain_rq 9
              (mkUser "root@example.org" "admin" "free") 1
              (mkUser "alice@example.org" "user" "free") 1
              (mkDocument "a.pdf" "local" None (Some "application/pdf") "approved")
              campus_db) as (Hresp & _ & Hcount);
    try (reflexivity || discriminate).
  split; [exact Hresp|]. rewrite Hcount. reflexivity.
Defined.

Lemma campus_ledger_unique : ledger_unique campus_db.
Proof.
  unfold ledger_unique. simpl.
  apply NoDup_cons_2.
  { intros [H|H]%elem_of_cons; [discriminate H|].
    apply list_elem_of_singleton in H. discriminate H. }
  apply NoDup_cons_2.
  { intros H%list_elem_of_singleton. discriminate H. }
  apply NoDup_singleton.
Defined.

Lemma profile_reflects_ledger_witness :
  uj_free_docs_remaining
    (User_serialize cfg2 campus_db 1 (mkUser "alice@example.org" "user" "free")) = 0%Z
  ∧ uj_accessed_doc_ids
      (User_serialize cfg2 campus_db 1 (mkUser "alice@example.org" "user" "free"))
    = [1%Z; 2%Z].
Proof.
  destruct (profile_reflects_ledger cfg2 campus_db 1
              (mkUser "alice@example.org" "user" "free") campus_ledger_unique)
    as (Hremaining & _).
  split; [rewrite Hremaining; reflexivity|reflexivity].
Defined.

Lemma remaining_predicts_download_witness :
  (0 < uj_free_docs_remaining (User_serialize cfg2 one_slot_db 1 alice))%Z
  ∧ decision_of (download_doc cfg2 rq0 1 2 one_slot_db).1.1 = Some Allow.
Proof.
  split; [reflexivity|].
  apply (remaining_predicts_download cfg2 rq0 one_slot_db 1 alice 2 (paper "approved"));
    try reflexivity.
  - unfold ledger_unique. simpl. apply NoDup_singleton.
  - by vm_compute.
Defined.

Lemma allowed_file_iff_pdf_extension_witness :
  allowed_file "Exam 2021.PDF" = true ∧ allowed_file "notes.pdf.txt" = false.
Proof.
  split; [|reflexivity].
  apply (allowed_file_iff_pdf_extension "Exam 2021.PDF").
  exists "Exam 2021", "PDF". split; reflexivity.
Defined.

Lemma send_email_falls_back_once_witness :
  send_email mail_all (mkMailWorld (Some 500%Z) true) "alice@example.org"
  = (true, [SendGrid; Smtp])
  ∧ (send_email mail_all (mkMailWorld (Some 500%Z) true) "alice@example.org").1
    = true.
Proof.
  split; [reflexivity|].
  destruct (send_email_falls_back_once mail_all (mkMailWorld (Some 500%Z) true)
              "alice@example.org") as (_ & _ & _ & _ & Hresult).
  rewrite Hresult. reflexivity.
Defined.

Lemma register_adds_one_free_user_witness :
  document_accesses
    (register cfg2 (Some "carol@example.org") (Some "carol@example.org") (Some "s3cret")
              3 campus_db).2
  = document_accesses campus_db.
Proof.
  exact (proj1 (proj2 (register_adds_one_free_user cfg2 (Some "carol@example.org")
                         (Some "carol@example.org") (Some "s3cret") 3 campus_db))).
Defined.

Lemma register_keeps_emails_unique_witness :
  emails_unique
    (register cfg2 None (Some "bob@example.org") (Some "hunter2") 2
       (register cfg2 None (Some "carol@example.org") (Some "s3cret") 1 empty_db).2).2.
Proof.
  apply (register_keeps_emails_unique cfg2 None (Some "bob@example.org")
           (Some "hunter2") 2).
  apply (register_keeps_emails_unique cfg2 None (Some "carol@example.org")
           (Some "s3cret") 1 empty_db).
  intros i j u v Hi. simpl in Hi. by rewrite lookup_empty in Hi.
Defined.

Lemma registered_email_is_refused_afterwards_witness :
  register cfg2 None (Some "carol@example.org") (Some "other") 5
    (register cfg2 None (Some "carol@example.org") (Some "s3cret") 3 campus_db).2
  = (RegisterConflict409,
     (register cfg2 None (Some "carol@example.org") (Some "s3cret") 3 campus_db).2).
Proof.
  eapply (registered_email_is_refused_afterwards cfg2 None (Some "carol@example.org")
            (Some "s3cret") 3 campus_db); reflexivity.
Defined.

Lemma upload_adds_one_pending_document_witness :
  users (upload_doc cfg2 mail_all exam_form 1 campus_db).1.2 = users campus_db
  ∧ status <$> documents (upload_doc cfg2 mail_all exam_form 1 campus_db).1.2 !! 7%Z
    = Some "pending".
Proof.
  split; [|reflexivity].
  exact (proj1 (upload_adds_one_pending_document cfg2 mail_all exam_form 1 campus_db)).
Defined.

Lemma uploaded_document_awaits_approval_witness :
  download_doc cfg2 plain_rq 2 7 (upload_doc cfg2 mail_all exam_form 1 campus_db).1.2
  = (NotAvailable403, (upload_doc cfg2 mail_all exam_form 1 campus_db).1.2, []).
Proof.
  edestruct (uploaded_document_awaits_approval cfg2 mail_all exam_form 1 campus_db 7)
    as [Hforbidden _].
  - reflexivity.
  - apply (Hforbidden plain_rq 2 (mkUser "bob@example.org" "user" "paid"));
      (reflexivity || discriminate).
Defined.

Lemma public_listing_shows_approved_only_witness :
  list_docs [4%Z; 3%Z; 2%Z; 1%Z] (Some 1%Z) (Some "pending") campus_db
  = list_docs [4%Z; 3%Z; 2%Z; 1%Z] (Some 1%Z) None campus_db
  ∧ dj_id <$> list_docs [4%Z; 3%Z; 2%Z; 1%Z] (Some 1%Z) (Some "pending") campus_db
    = [3%Z; 2%Z; 1%Z].
Proof.
  split; [|reflexivity].
  destruct (public_listing_shows_approved_only [4%Z; 3%Z; 2%Z; 1%Z] (Some 1%Z)
              (Some "pending") campus_db) as (_ & Hsame & _).
  - intros uid user [= <-] [= <-]. discriminate.
  - exact Hsame.
Defined.

Lemma admin_listing_shows_status_witness :
  mkDocJson 4 (Some "pending") ∈ list_docs [4%Z; 3%Z; 2%Z; 1%Z] (Some 9%Z) None campus_db.
Proof.
  destruct (admin_listing_shows_status [4%Z; 3%Z; 2%Z; 1%Z] 9
              (mkUser "root@example.org" "admin" "free") None campus_db)
    as [_ Hall]; try reflexivity.
  apply (Hall eq_refl) with
    (doc := mkDocument "d.pdf" "local" None (Some "application/pdf") "pending").
  - simpl. lia.
  - apply list_elem_of_here.
  - reflexivity.
Defined.

Lemma delete_is_admin_only_and_atomic_witness :
  (delete_doc true true 1 1 campus_db).2 = campus_db
  ∧ (delete_doc true false 9 1 campus_db).2 = campus_db
  ∧ users (delete_doc true true 9 1 campus_db).2 = users campus_db.
Proof.
  split; [|split].
  - exact (proj2 (proj2 (delete_is_admin_only_and_atomic true true 1 1 campus_db))).
  - exact (proj2 (proj2 (delete_is_admin_only_and_atomic true false 9 1 campus_db))).
  - exact (proj1 (delete_is_admin_only_and_atomic true true 9 1 campus_db)).
Defined.

Lemma deleted_document_leaves_no_trace_witness :
  download_doc cfg2 plain_rq 2 1 (delete_doc true true 9 1 campus_db).2
  = (NotFound404, (delete_doc true true 9 1 campus_db).2, [])
  ∧ document_accesses (delete_doc true true 9 1 campus_db).2 = [mkAccess 1 2].
Proof.
  split; [|reflexivity].
  edestruct (deleted_document_leaves_no_trace cfg2 true 9 1 campus_db)
    as (_ & _ & _ & Hgone & _).
  - reflexivity.
  - apply (Hgone plain_rq 2).
Defined.

Lemma deleting_a_document_frees_its_slot_witness :
  ledger_count (delete_doc true true 9 1 campus_db).2 2 = (1 - 1)%Z
  ∧ ledger_count (delete_doc true true 9 1 campus_db).2 9 = 0%Z
  ∧ download_doc cfg2 plain_rq 1 3 campus_db = (UpgradeRequired402, campus_db, [])
  ∧ decision_of (download_doc cfg2 plain_rq 1 3 (delete_doc true true 9 1 campus_db).2).1.1
    = Some Allow.
Proof.
  destruct (deleting_a_document_frees_its_slot cfg2 true 9 1 campus_db 1
              (delete_doc true true 9 1 campus_db).2 eq_refl) as [Hcount Hslot].
  split; [exact (Hcount 2%Z)|]. split; [exact (Hcount 9%Z)|].
  apply (Hslot plain_rq 1 (mkUser "alice@example.org" "user" "free") 3
           (mkDocument "c.pdf" "s3" (Some "uploads/c.pdf") None "approved"));
    [reflexivity|reflexivity|reflexivity|by vm_compute|reflexivity
    |discriminate|reflexivity|reflexivity|by vm_compute].
Defined.

Lemma granted_download_shows_in_profile_witness :
  ∃ before after,
    me cfg2 1 one_slot_db = Some (before, 2%Z)
    ∧ me cfg2 1 (download_doc cfg2 rq0 1 2 one_slot_db).1.2 = Some (after, 2%Z)
    ∧ uj_accessed_doc_ids after ≡ₚ 2%Z :: uj_accessed_doc_ids before
    ∧ uj_free_docs_remaining after = Z.max (uj_free_docs_remaining before - 1) 0.
Proof.
  destruct (granted_download_shows_in_profile cfg2 rq0 1 2 one_slot_db alice)
    as (before & after & Hb & Ha & _ & _ & _ & _ & Hdiff); [reflexivity|reflexivity|].
  exists before, after. split; [exact Hb|]. split; [exact Ha|]. exact Hdiff.
Defined.

(** ** The effect of the webhook on the store *)

(** X27. What a webhook delivery can do to the store: nothing, or set
    the [subscription_status] of one existing user, to paid for a
    [checkout.session.completed] event and to free for a
    [customer.subscription.deleted] event whose non-empty user reference
    [int] reads as the id of that user, every other row and column staying
    as it was; such a delivery is acknowledged with 200, and it takes a
    configured webhook. *)
Theorem webhook_changes_one_subscription cfg py_int verified db :
  let out := billing_webhook cfg py_int verified db in
  out.2 = db
  ∨ ∃ ev ref uid user st,
      verified = Some ev
      ∧ stripe cfg = true
      ∧ STRIPE_WEBHOOK_SECRET cfg ≠ ""
      ∧ ((ev_type ev = "checkout.session.completed" ∧ st = "paid")
         ∨ (ev_type ev = "customer.subscription.deleted" ∧ st = "free"))
      ∧ ev_user_id ev = Some ref
      ∧ ref ≠ ""
      ∧ py_int ref = Some uid
      ∧ users db !! uid = Some user
      ∧ out.1 = Received200
      ∧ out.2 = set_subscription st uid user db.
Proof.
  simpl. unfold billing_webhook.
  destruct (stripe cfg) eqn:Hs; [|by left]. simpl.
  destruct (truthy (STRIPE_WEBHOOK_SECRET cfg)) eqn:Hw; [|by left]. simpl.
  assert (Hsecret : STRIPE_WEBHOOK_SECRET cfg ≠ "").
  { unfold truthy in Hw. apply negb_true_iff in Hw. by apply String.eqb_neq. }
  destruct verified as [ev|]; [|by left].
  assert (Hrec : ∀ st,
    let res := match reconcile py_int st (ev_user_id ev) db with
               | Some db' => (Received200, db')
               | None => (WebhookUnhandled500, db)
               end in
    res.2 = db
    ∨ ∃ ref uid user,
        ev_user_id ev = Some ref ∧ ref ≠ "" ∧ py_int ref = Some uid
        ∧ users db !! uid = Some user
        ∧ res.1 = Received200 ∧ res.2 = set_subscription st uid user db).
  { intros st. simpl. unfold reconcile.
    destruct (ev_user_id ev) as [ref|]; [|by left].
    destruct (truthy ref) eqn:Ht; [|by left].
    destruct (py_int ref) as [uid|] eqn:Hp; [|by left].
    destruct (users db !! uid) as [user|] eqn:Hu; [|by left].
    right. exists ref, uid, user. repeat split; try done.
    unfold truthy in Ht. apply negb_true_iff in Ht. by apply String.eqb_neq. }
  unfold process_event.
  destruct (ev_type ev =? "checkout.session.completed") eqn:Hc.
  { apply String.eqb_eq in Hc.
    destruct (Hrec "paid") as [Hsame|(ref & uid & user & ? & ? & ? & ? & ? & ?)];
      [by left|right].
    exists ev, ref, uid, user, "paid". repeat split; try done. by left. }
  destruct (ev_type ev =? "customer.subscription.deleted") eqn:Hx.
  { apply String.eqb_eq in Hx.
    destruct (Hrec "free") as [Hsame|(ref & uid & user & ? & ? & ? & ? & ? & ?)];
      [by left|right].
    exists ev, ref, uid, user, "free". repeat split; try done. by right. }
  by left.
Qed.

Lemma webhook_changes_one_subscription_witness :
  (billing_webhook cfg2 int_on_digits (Some (canceled "2")) campus_db).2
  = set_subscription "free" 2 (mkUser "bob@example.org" "user" "paid") campus_db.
Proof.
  destruct (webhook_changes_one_subscription cfg2 int_on_digits
              (Some (canceled "2")) campus_db)
    as [Hsame|(ev & ref & uid & user & st & Hev & _ & _ & Hkind & Href & _ & Hid & Hu & _ & Hout)].
  - apply (f_equal (λ db, subscription_of db 2)) in Hsame. discriminate Hsame.
  - injection Hev as <-. simpl in Href. injection Href as <-.
    vm_compute in Hid. injection Hid as <-.
    vm_compute in Hu. injection Hu as <-.
    destruct Hkind as [[Hk _]|[_ ->]]; [discriminate Hk|]. exact Hout.
Defined.
